(** * DoctorRegister: the doctor registration page

    A shallow embedding of [frontend/src/pages/auth/DoctorRegister.tsx]:
    the component's hooks ([useState], [useForm]) become a record, the
    handlers [handleServiceChange] and [onSubmit] become functions and
    programs over it, and the browser ([fetch], [localStorage],
    [navigate]) becomes a trace of effects plus a storage map. *)

From Stdlib Require Import String Ascii List Bool Arith Lia.
From stdpp Require Import base option gmap strings list pretty.
Import ListNotations.

Set Implicit Arguments.

(** ** JavaScript values

    [result] in [onSubmit] is typed [any]: whatever [response.json()]
    produced.  Strings are sequences of code units, compared by [===] as
    sequences and measured by [String.length]. *)

Section Values.
Variable number : Type.

#[warnings="-register-all"]
Inductive json : Type :=
| VUndefined
| VNull
| VBool (b : bool)
| VNum (n : number)
| VStr (s : string)
| VArr (items : list json)
| VObj (props : list (string * json)).
End Values.

Arguments VUndefined {number}.
Arguments VNull {number}.
Arguments VBool {number} b.
Arguments VStr {number} s.

(** An [Error] instance as far as this page looks at it: the [catch]
    clause reads [err.message] and nothing else. *)
Record Exception : Type := new_Error { message : string }.

(** What a promise settles to. *)
Inductive settled (A : Type) : Type :=
| Fulfilled (a : A)
| Rejected (reason : Exception).

Arguments Rejected {A} reason.

(** Evaluating an expression either throws or yields a value. *)
#[export] Instance throwing_ret : MRet (sum Exception) := fun A a => inr a.
#[export] Instance throwing_bind : MBind (sum Exception) := fun A B f r =>
  match r with
  | inl e => inl e
  | inr a => f a
  end.

(** The parts of the JavaScript engine the page calls but does not
    define.  Numbers are IEEE doubles and are only ever copied, tested
    for truthiness or printed; the text of an engine-raised [TypeError]
    differs between engines; [JSON.stringify] is the built-in
    serialiser. *)
Class Engine : Type := {
  number : Type;
  (** [ToBoolean] on a number: false for [+0], [-0] and [NaN]. *)
  Number_ToBoolean : number -> bool;
  Number_toString : number -> string;
  (** [ToString] on an array or object, which runs user-visible
      [toString]/[valueOf] lookups and may throw. *)
  Object_ToString : json number -> Exception + string;
  (** [JSON.stringify] on an object literal whose property values came
      out of [JSON.parse] or are [undefined]. *)
  JSON_stringify : json number -> string;
  (** The [TypeError] raised by reading property [P] of [undefined] or
      [null]. *)
  TypeError_read : json number -> string -> Exception
}.

Abbreviation value := (json number).

Section Language.
Context {E : Engine}.

Definition ToBoolean (v : value) : bool :=
  match v with
  | VUndefined | VNull => false
  | VBool b => b
  | VNum n => Number_ToBoolean n
  | VStr s => negb (String.eqb s "")
  | VArr _ | VObj _ => true
  end.

Definition ToString (v : value) : Exception + string :=
  match v with
  | VUndefined => inr "undefined"
  | VNull => inr "null"
  | VBool true => inr "true"
  | VBool false => inr "false"
  | VNum n => inr (Number_toString n)
  | VStr s => inr s
  | VArr _ | VObj _ => Object_ToString v
  end.

Fixpoint own_property (props : list (string * value)) (P : string) : option value :=
  match props with
  | [] => None
  | (k, v) :: rest => if String.eqb k P then Some v else own_property rest P
  end.

(** [v.P] for the property names this page reads ([message], [data],
    [token], [user], [id], [name], [email], [specialization]): none of
    them is defined on [Object.prototype] or on the prototypes of
    strings, numbers, booleans and arrays, so only own properties of
    an object answer, and only [undefined] and [null] throw. *)
Definition Get (v : value) (P : string) : Exception + value :=
  match v with
  | VUndefined | VNull => inl (TypeError_read v P)
  | VObj props => inr (default VUndefined (own_property props P))
  | VBool _ | VNum _ | VStr _ | VArr _ => inr VUndefined
  end.

(** [a || b] on values. *)
Definition or_else (a b : value) : value := if ToBoolean a then a else b.

(** [a || b] where [a] is known to be a string. *)
Definition or_else_string (a b : string) : string :=
  if String.eqb a "" then b else a.
End Language.

(** ** Data model *)

Module Service.
Record t {E : Engine} : Type := mk {
  _id : string;
  name : string;
  description : string;
  duration : number;
  price : number
}.
End Service.
Abbreviation Service := Service.t.

(** The state behind [selectedServiceDetails]. *)
Module Details.
Record t {E : Engine} : Type := mk {
  duration : number;
  price : number
}.
End Details.

(** [RegisterFormInputs] is declared in [types/auth], outside this file;
    its fields are the seven names the page registers with [useForm],
    each bound to a text control. *)
Module Inputs.
Record t : Type := mk {
  name : string;
  email : string;
  password : string;
  confirmPassword : string;
  specialization : string;
  phoneNumber : string;
  address : string
}.

Definition setValue_specialization (v : string) (data : t) : t :=
  {| name := name data; email := email data; password := password data;
     confirmPassword := confirmPassword data; specialization := v;
     phoneNumber := phoneNumber data; address := address data |}.
End Inputs.
Abbreviation RegisterFormInputs := Inputs.t.

(** ** The browser side *)

Record RequestInit : Type := {
  method : string;
  headers : list (string * string);
  body : string
}.

(** A [Response]: the [ok] flag and what [response.json()] will settle
    to once the body has been read. *)
Record Response {E : Engine} : Type := {
  ok : bool;
  json_body : settled value
}.

Inductive effect : Type :=
| Fetched (url : string) (init : RequestInit)
| Stored (key val : string)
| Navigated (to : string).

Record Browser : Type := {
  localStorage : gmap string string;
  (** every [fetch], [localStorage.setItem] and [navigate] call so far,
      oldest first *)
  trace : list effect
}.

Definition perform (e : effect) (w : Browser) : Browser :=
  {| localStorage :=
       match e with
       | Stored key val => <[key := val]> (localStorage w)
       | _ => localStorage w
       end;
     trace := trace w ++ [e] |}.

Definition is_fetch (e : effect) : bool :=
  match e with Fetched _ _ => true | _ => false end.

(** The route last navigated to, if any. *)
Definition location (w : Browser) : option string :=
  last (omap (fun e => match e with Navigated to => Some to | _ => None end) (trace w)).

(** ** Component state

    One field per [useState] hook, plus the parts of the [useForm]
    state the page depends on: the field values, [formState.errors]
    (field name to message), and the value the select element holds,
    which is what the specialization field's [ref.value] reads.  The
    two differ when an option is chosen that [handleServiceChange]
    does not take up. *)

Record Hooks {E : Engine} : Type := {
  isLoading : bool;
  error : option string;
  services : list Service;
  selectedServiceDetails : option Details.t;
  values : RegisterFormInputs;
  errors : list (string * string);
  select_value : string
}.

Section Setters.
Context {E : Engine}.

Definition with_isLoading (b : bool) (st : Hooks) : Hooks :=
  {| isLoading := b; error := error st; services := services st;
     selectedServiceDetails := selectedServiceDetails st;
     values := values st; errors := errors st;
     select_value := select_value st |}.

Definition with_error (e : option string) (st : Hooks) : Hooks :=
  {| isLoading := isLoading st; error := e; services := services st;
     selectedServiceDetails := selectedServiceDetails st;
     values := values st; errors := errors st;
     select_value := select_value st |}.

Definition with_services (l : list Service) (st : Hooks) : Hooks :=
  {| isLoading := isLoading st; error := error st; services := l;
     selectedServiceDetails := selectedServiceDetails st;
     values := values st; errors := errors st;
     select_value := select_value st |}.

Definition with_selectedServiceDetails (d : option Details.t) (st : Hooks) : Hooks :=
  {| isLoading := isLoading st; error := error st; services := services st;
     selectedServiceDetails := d;
     values := values st; errors := errors st;
     select_value := select_value st |}.

Definition with_values (v : RegisterFormInputs) (st : Hooks) : Hooks :=
  {| isLoading := isLoading st; error := error st; services := services st;
     selectedServiceDetails := selectedServiceDetails st;
     values := v; errors := errors st; select_value := select_value st |}.

Definition with_errors (errs : list (string * string)) (st : Hooks) : Hooks :=
  {| isLoading := isLoading st; error := error st; services := services st;
     selectedServiceDetails := selectedServiceDetails st;
     values := values st; errors := errs; select_value := select_value st |}.

Definition with_select_value (v : string) (st : Hooks) : Hooks :=
  {| isLoading := isLoading st; error := error st; services := services st;
     selectedServiceDetails := selectedServiceDetails st;
     values := values st; errors := errors st; select_value := v |}.

(** [setValue('specialization', v)]: [v] becomes the field's value and
    is written to the field's element. *)
Definition setValue_specialization (v : string) (st : Hooks) : Hooks :=
  with_select_value v
    (with_values (Inputs.setValue_specialization v (values st)) st).

(** The state of a freshly mounted page. *)
Definition mount : Hooks :=
  {| isLoading := false; error := None; services := [];
     selectedServiceDetails := None;
     values := Inputs.mk "" "" "" "" "" "" "";
     errors := []; select_value := "" |}.
End Setters.

(** ** Handler programs

    An [async] handler is a tree of the calls it makes: state setters,
    browser calls, and the two points where it awaits a promise and the
    rest of the handler waits for the outcome. *)

Inductive prog {E : Engine} (A : Type) : Type :=
| Ret (a : A)
| Throw (e : Exception)
| SetIsLoading (b : bool) (k : prog A)
| SetError (e : option string) (k : prog A)
| LocalStorage_setItem (key val : string) (k : prog A)
| Navigate (to : string) (k : prog A)
| Await_fetch (url : string) (init : RequestInit) (k : settled Response -> prog A)
| Await_json (response : Response) (k : settled value -> prog A).

Arguments Throw {E A} e.

Section Programs.
Context {E : Engine}.

Fixpoint bind {A B : Type} (p : prog A) (f : A -> prog B) : prog B :=
  match p with
  | Ret a => f a
  | Throw e => Throw e
  | SetIsLoading b k => SetIsLoading b (bind k f)
  | SetError e k => SetError e (bind k f)
  | LocalStorage_setItem key val k => LocalStorage_setItem key val (bind k f)
  | Navigate to k => Navigate to (bind k f)
  | Await_fetch url init k => Await_fetch url init (fun r => bind (k r) f)
  | Await_json response k => Await_json response (fun r => bind (k r) f)
  end.

#[export] Instance prog_ret : MRet prog := fun A a => Ret a.
#[export] Instance prog_bind : MBind prog := fun A B f p => bind p f.

(** [try { body } catch (err) { handler err }] *)
Fixpoint try_catch {A : Type} (body : prog A) (handler : Exception -> prog A) : prog A :=
  match body with
  | Ret a => Ret a
  | Throw e => handler e
  | SetIsLoading b k => SetIsLoading b (try_catch k handler)
  | SetError e k => SetError e (try_catch k handler)
  | LocalStorage_setItem key val k => LocalStorage_setItem key val (try_catch k handler)
  | Navigate to k => Navigate to (try_catch k handler)
  | Await_fetch url init k => Await_fetch url init (fun r => try_catch (k r) handler)
  | Await_json response k => Await_json response (fun r => try_catch (k r) handler)
  end.

(** [try { body } finally { finalizer }]: the finalizer runs on both
    exits, and an exception of the body goes on after it. *)
Fixpoint try_finally {A : Type} (body : prog A) (finalizer : prog unit) : prog A :=
  match body with
  | Ret a => bind finalizer (fun _ => Ret a)
  | Throw e => bind finalizer (fun _ => Throw e)
  | SetIsLoading b k => SetIsLoading b (try_finally k finalizer)
  | SetError e k => SetError e (try_finally k finalizer)
  | LocalStorage_setItem key val k => LocalStorage_setItem key val (try_finally k finalizer)
  | Navigate to k => Navigate to (try_finally k finalizer)
  | Await_fetch url init k => Await_fetch url init (fun r => try_finally (k r) finalizer)
  | Await_json response k => Await_json response (fun r => try_finally (k r) finalizer)
  end.

Definition try_catch_finally {A : Type}
    (body : prog A) (handler : Exception -> prog A) (finalizer : prog unit) : prog A :=
  try_finally (try_catch body handler) finalizer.

(** [await p]: the value of a fulfilled promise, the reason of a
    rejected one thrown. *)
Definition await {A : Type} (r : settled A) : prog A :=
  match r with
  | Fulfilled a => Ret a
  | Rejected reason => Throw reason
  end.

(** An expression that may throw while it is evaluated. *)
Definition eval {A : Type} (r : Exception + A) : prog A :=
  match r with
  | inl e => Throw e
  | inr a => Ret a
  end.

Definition setIsLoading (b : bool) : prog unit := SetIsLoading b (Ret tt).
Definition setError (e : option string) : prog unit := SetError e (Ret tt).
Definition navigate (to : string) : prog unit := Navigate to (Ret tt).

(** [await fetch(url, init)] *)
Definition fetch (url : string) (init : RequestInit) : prog Response :=
  Await_fetch url init await.

(** [await response.json()] *)
Definition response_json (response : Response) : prog value :=
  Await_json response await.

(** [localStorage.setItem(key, v)]: the value is converted with
    [ToString] before it is stored. *)
Definition localStorage_setItem (key : string) (v : value) : prog unit :=
  s ← eval (ToString v); LocalStorage_setItem key s (Ret tt).

(** [new Error(v)] for a [v] other than [undefined]. *)
Definition Error (v : value) : prog Exception :=
  s ← eval (ToString v); Ret (new_Error s).

(** [v.p1.p2...], read left to right. *)
Fixpoint Get_path (v : value) (path : list string) : Exception + value :=
  match path with
  | [] => inr v
  | P :: rest =>
      match Get v P with
      | inl e => inl e
      | inr v' => Get_path v' rest
      end
  end.
End Programs.

(** ** The handlers of [DoctorRegister] *)

Section Handlers.
Context {E : Engine}.

(** [services.find(service => service.name === v)] *)
Definition find_service (services : list Service) (v : string) : option Service :=
  find (fun service => String.eqb (Service.name service) v) services.

(** [handleServiceChange]; the argument is [e.target.value]. *)
Definition handleServiceChange (e_target_value : string) (st : Hooks) : Hooks :=
  let selectedService := find_service (services st) e_target_value in
  match selectedService with
  | Some selectedService =>
      let st := setValue_specialization (Service.name selectedService) st in
      with_selectedServiceDetails
        (Some {| Details.duration := Service.duration selectedService;
                 Details.price := Service.price selectedService |}) st
  | None => st
  end.

Definition register_url : string := "http://localhost:5000/api/auth/doctor/register".

(** The object literal passed to [JSON.stringify] for the request. *)
Definition register_payload (data : RegisterFormInputs) : value :=
  VObj [ ("name", VStr (Inputs.name data));
         ("email", VStr (Inputs.email data));
         ("password", VStr (Inputs.password data));
         ("specialization", VStr (Inputs.specialization data));
         ("phoneNumber", VStr (Inputs.phoneNumber data));
         ("address", VStr (Inputs.address data));
         ("role", VStr "doctor") ].

Definition register_request (data : RegisterFormInputs) : RequestInit :=
  {| method := "POST";
     headers := [("Content-Type", "application/json")];
     body := JSON_stringify (register_payload data) |}.

(** The object literal passed to [JSON.stringify] for the [user] entry;
    its property values are read in source order. *)
Definition user_summary (result : value) : Exception + value :=
  id ← Get_path result ["data"; "user"; "id"];
  name ← Get_path result ["data"; "user"; "name"];
  email ← Get_path result ["data"; "user"; "email"];
  specialization ← Get_path result ["data"; "user"; "specialization"];
  mret (VObj [ ("id", id);
               ("name", name);
               ("email", email);
               ("role", VStr "doctor");
               ("specialization", specialization) ]).

(** The [try] block of [onSubmit] from the test of [response.ok] on:
    the statements that run once [response.json()] has settled. *)
Definition onSubmit_settle (response : Response) (result : value) : prog unit :=
  (if negb (ok response)
   then
     m ← eval (Get result "message");
     err ← Error (or_else m (VStr "Registration failed"));
     Throw err
   else mret tt);;
  token ← eval (Get_path result ["data"; "token"]);
  localStorage_setItem "token" token;;
  summary ← eval (user_summary result);
  localStorage_setItem "user" (VStr (JSON_stringify summary));;
  navigate "/doctor/dashboard".

(** The [try] block of [onSubmit]. *)
Definition onSubmit_try (services : list Service) (data : RegisterFormInputs) : prog unit :=
  setIsLoading true;;
  setError None;;
  let selectedService := find_service services (Inputs.specialization data) in
  (if negb (bool_decide (is_Some selectedService))
   then Throw (new_Error "Please select a valid specialization")
   else mret tt);;
  response ← fetch register_url (register_request data);
  result ← response_json response;
  onSubmit_settle response result.

(** The [catch] clause. *)
Definition onSubmit_catch (err : Exception) : prog unit :=
  setError (Some (or_else_string (message err) "Registration failed. Please try again.")).

(** The [finally] clause. *)
Definition onSubmit_finally : prog unit :=
  setIsLoading false.

(** [onSubmit]; [services] is the list the closure captured at the
    render that created it. *)
Definition onSubmit (services : list Service) (data : RegisterFormInputs) : prog unit :=
  try_catch_finally (onSubmit_try services data) onSubmit_catch onSubmit_finally.

(** What the [try] block throws for a response that is not [ok]:
    [new Error(result.message || 'Registration failed')], or whatever
    evaluating that expression threw. *)
Definition rejection (result : value) : Exception :=
  match Get result "message" with
  | inl e => e
  | inr m =>
      match ToString (or_else m (VStr "Registration failed")) with
      | inl e => e
      | inr s => new_Error s
      end
  end.

(** [onSubmit] parked at [await fetch(...)]: what runs when the promise
    settles. *)
Definition onSubmit_after_fetch (r : settled Response) : prog unit :=
  try_catch_finally
    (response ← await r; result ← response_json response; onSubmit_settle response result)
    onSubmit_catch onSubmit_finally.

(** [onSubmit] parked at [await response.json()]. *)
Definition onSubmit_after_json (response : Response) (r : settled value) : prog unit :=
  try_catch_finally
    (result ← await r; onSubmit_settle response result)
    onSubmit_catch onSubmit_finally.
End Handlers.

(** ** Running a handler *)

Section Run.
Context {E : Engine}.

(** What the network answers to a [fetch]. *)
Definition network : Type := string -> RequestInit -> settled Response.

(** Run a handler to its end against a network that answers at once. *)
Fixpoint run {A : Type} (net : network) (p : prog A) (st : Hooks) (w : Browser)
    : Hooks * Browser * (Exception + A) :=
  match p with
  | Ret a => (st, w, inr a)
  | Throw e => (st, w, inl e)
  | SetIsLoading b k => run net k (with_isLoading b st) w
  | SetError e k => run net k (with_error e st) w
  | LocalStorage_setItem key val k => run net k st (perform (Stored key val) w)
  | Navigate to k => run net k st (perform (Navigated to) w)
  | Await_fetch url init k => run net (k (net url init)) st (perform (Fetched url init) w)
  | Await_json response k => run net (k (json_body response)) st w
  end.

(** An [onSubmit] call parked at an [await], with the rest of the
    handler. *)
Inductive waiting : Type :=
| Awaiting_fetch (k : settled Response -> prog unit)
| Awaiting_json (response : Response) (k : settled value -> prog unit).

(** Where a handler stands when control returns to the event loop. *)
Inductive status : Type :=
| Done
| Uncaught (e : Exception)
| Waiting (x : waiting).

(** Run a handler up to its next [await]. *)
Fixpoint advance (p : prog unit) (st : Hooks) (w : Browser) : Hooks * Browser * status :=
  match p with
  | Ret _ => (st, w, Done)
  | Throw e => (st, w, Uncaught e)
  | SetIsLoading b k => advance k (with_isLoading b st) w
  | SetError e k => advance k (with_error e st) w
  | LocalStorage_setItem key val k => advance k st (perform (Stored key val) w)
  | Navigate to k => advance k st (perform (Navigated to) w)
  | Await_fetch url init k =>
      (st, perform (Fetched url init) w, Waiting (Awaiting_fetch k))
  | Await_json response k => (st, w, Waiting (Awaiting_json response k))
  end.
End Run.

(** ** Field rules

    The options the page passes to [register], and how [react-hook-form]
    checks a text field against them when the form is submitted:
    [required] first, then [minLength], then [pattern], then [validate];
    the first failing rule gives the field's message. *)

(** Regular expressions, as far as the e-mail pattern needs them. *)
Inductive regex : Type :=
| Never
| Epsilon
| Class (p : ascii -> bool)
| Cat (r1 r2 : regex)
| Alt (r1 r2 : regex)
| Star (r : regex).

Fixpoint nullable (r : regex) : bool :=
  match r with
  | Never => false
  | Epsilon => true
  | Class _ => false
  | Cat r1 r2 => nullable r1 && nullable r2
  | Alt r1 r2 => nullable r1 || nullable r2
  | Star _ => true
  end.

Fixpoint derivative (c : ascii) (r : regex) : regex :=
  match r with
  | Never => Never
  | Epsilon => Never
  | Class p => if p c then Epsilon else Never
  | Cat r1 r2 =>
      if nullable r1
      then Alt (Cat (derivative c r1) r2) (derivative c r2)
      else Cat (derivative c r1) r2
  | Alt r1 r2 => Alt (derivative c r1) (derivative c r2)
  | Star r1 => Cat (derivative c r1) (Star r1)
  end.

(** [/^r$/.test(s)]: the whole of [s] matches [r]. *)
Fixpoint test (r : regex) (s : string) : bool :=
  match s with
  | EmptyString => nullable r
  | String c rest => test (derivative c r) rest
  end.

Definition in_range (lo hi : nat) (c : ascii) : bool :=
  (lo <=? nat_of_ascii c) && (nat_of_ascii c <=? hi).

Definition one_of (chars : string) (c : ascii) : bool :=
  existsb (Ascii.eqb c) (list_ascii_of_string chars).

(** [[A-Z]] under the [i] flag. *)
Definition letter (c : ascii) : bool := in_range 65 90 c || in_range 97 122 c.
Definition digit (c : ascii) : bool := in_range 48 57 c.

Definition Plus (r : regex) : regex := Cat r (Star r).

(** [/^[A-Z0-9._%+-]+@[A-Z0-9.-]+\.[A-Z]{2,}$/i] *)
Definition email_pattern : regex :=
  Cat (Plus (Class (fun c => letter c || digit c || one_of "._%+-" c)))
 (Cat (Class (Ascii.eqb "@"))
 (Cat (Plus (Class (fun c => letter c || digit c || one_of ".-" c)))
 (Cat (Class (Ascii.eqb "."))
 (Cat (Class letter) (Cat (Class letter) (Star (Class letter))))))).

Record RegisterOptions : Type := {
  required : option string;
  minLength : option (nat * string);
  pattern : option (regex * string);
  (** a [validate] callback returns [true] (here [None]) or a message *)
  validate : option (string -> option string)
}.

(** A field counts as empty when its value is the empty string or the
    element it is bound to holds the empty string. *)
Definition isEmpty (ref_value inputValue : string) : bool :=
  String.eqb inputValue "" || String.eqb ref_value "".

Definition check_required (rules : RegisterOptions) (ref_value inputValue : string)
    : option string :=
  match required rules with
  | Some msg => if isEmpty ref_value inputValue then Some msg else None
  | None => None
  end.

Definition check_minLength (rules : RegisterOptions) (ref_value inputValue : string)
    : option string :=
  match minLength rules with
  | Some (n, msg) =>
      if negb (isEmpty ref_value inputValue) && (String.length inputValue <? n)
      then Some msg else None
  | None => None
  end.

Definition check_pattern (rules : RegisterOptions) (ref_value inputValue : string)
    : option string :=
  match pattern rules with
  | Some (r, msg) =>
      if negb (isEmpty ref_value inputValue) && negb (test r inputValue)
      then Some msg else None
  | None => None
  end.

Definition check_validate (rules : RegisterOptions) (inputValue : string) : option string :=
  match validate rules with
  | Some f => f inputValue
  | None => None
  end.

Definition first_error (checks : list (option string)) : option string :=
  List.find (fun _ => true) (omap id checks).

Definition validateField (rules : RegisterOptions) (ref_value inputValue : string)
    : option string :=
  first_error [ check_required rules ref_value inputValue;
                check_minLength rules ref_value inputValue;
                check_pattern rules ref_value inputValue;
                check_validate rules inputValue ].

Definition only_required (msg : string) : RegisterOptions :=
  {| required := Some msg; minLength := None; pattern := None; validate := None |}.

(** The seven [register] calls of the page, in render order, each with
    the field it reads.  [password] is [watch('password')], the value
    the render that registered the rules saw. *)
Definition registered (password : string)
    : list (string * RegisterOptions * (RegisterFormInputs -> string)) :=
  [ ("name", only_required "Name is required", Inputs.name);
    ("email",
     {| required := Some "Email is required"; minLength := None;
        pattern := Some (email_pattern, "Invalid email address");
        validate := None |},
     Inputs.email);
    ("specialization", only_required "Service selection is required", Inputs.specialization);
    ("phoneNumber", only_required "Phone number is required", Inputs.phoneNumber);
    ("address", only_required "Address is required", Inputs.address);
    ("password",
     {| required := Some "Password is required";
        minLength := Some (6, "Password must be at least 6 characters");
        pattern := None; validate := None |},
     Inputs.password);
    ("confirmPassword",
     {| required := Some "Please confirm your password"; minLength := None;
        pattern := None;
        validate := Some (fun value =>
          if String.eqb value password then None
          else Some "The passwords do not match") |},
     Inputs.confirmPassword) ].

(** The [errors] object after validating every registered field;
    [refs] are the values the fields' elements hold. *)
Definition validateFields
    (fields : list (string * RegisterOptions * (RegisterFormInputs -> string)))
    (refs fieldValues : RegisterFormInputs) : list (string * string) :=
  omap (fun '(name, rules, read) =>
          match validateField rules (read refs) (read fieldValues) with
          | Some msg => Some (name, msg)
          | None => None
          end) fields.

Section Form.
Context {E : Engine}.

(** What the seven elements hold.  An input or textarea holds what was
    typed, which is the field's value; the select holds the option last
    chosen. *)
Definition refs (st : Hooks) : RegisterFormInputs :=
  Inputs.setValue_specialization (select_value st) (values st).

(** [handleSubmit(onValid)]: validate the current field values; call
    [onValid] with them only when no field has an error. *)
Definition handleSubmit (onValid : RegisterFormInputs -> prog unit) (st : Hooks)
    : Hooks * prog unit :=
  let fieldValues := values st in
  let errs :=
    validateFields (registered (Inputs.password fieldValues)) (refs st) fieldValues in
  (with_errors errs st,
   match errs with
   | [] => onValid fieldValues
   | _ :: _ => Ret tt
   end).

(** The submit button's [disabled] attribute. *)
Definition submit_disabled (st : Hooks) : bool := isLoading st.
End Form.

(** ** What the page renders

    The parts of the returned markup that depend on the state: the
    options of the select, the two read-only detail fields, the text of
    the submit button and the error banner.  A number inside a template
    literal or as JSX text is printed by the engine. *)

Section View.
Context {E : Engine}.

(** The text of a service's [<option>]. *)
Definition option_text (service : Service) : string :=
  Service.name service +:+ " - $" +:+ Number_toString (Service.price service)
  +:+ " - " +:+ Number_toString (Service.duration service) +:+ " mins".

(** The [<option>]s of the select, each with its [value] and its text:
    the placeholder, then one per service. *)
Definition select_options (st : Hooks) : list (string * string) :=
  ("", "Select a service")
  :: map (fun service => (Service.name service, option_text service)) (services st).

(** The value of the Consultation Duration field. *)
Definition duration_field (st : Hooks) : string :=
  match selectedServiceDetails st with
  | Some d => Number_toString (Details.duration d) +:+ " minutes"
  | None => "Select a service"
  end.

(** The value of the Consultation Price field. *)
Definition price_field (st : Hooks) : string :=
  match selectedServiceDetails st with
  | Some d => "$" +:+ Number_toString (Details.price d)
  | None => "Select a service"
  end.

(** The text of the submit button. *)
Definition submit_text (st : Hooks) : string :=
  if isLoading st then "Creating account..." else "Create account".

(** [{error && <div>{error}</div>}]: the banner and its text, when one
    is rendered. *)
Definition error_banner (st : Hooks) : option string :=
  match error st with
  | Some e => if String.eqb e "" then None else Some e
  | None => None
  end.
End View.

(** ** The page as a transition system

    Between two events the page is its hooks, the browser, whether the
    [getServices()] call of the mount effect is still out, and the
    [onSubmit] calls parked at an [await]. *)

Record Config {E : Engine} : Type := {
  hooks : Hooks;
  browser : Browser;
  fetchingServices : bool;
  in_flight : list waiting
}.

(** The six text controls.  Each passes what is typed on to
    [react-hook-form], so its field value is what it holds. *)
Inductive control : Type :=
| Name | Email | Password | ConfirmPassword | PhoneNumber | Address.

Definition write_control (c : control) (v : string) (data : RegisterFormInputs)
    : RegisterFormInputs :=
  match c with
  | Name => Inputs.mk v (Inputs.email data) (Inputs.password data)
      (Inputs.confirmPassword data) (Inputs.specialization data)
      (Inputs.phoneNumber data) (Inputs.address data)
  | Email => Inputs.mk (Inputs.name data) v (Inputs.password data)
      (Inputs.confirmPassword data) (Inputs.specialization data)
      (Inputs.phoneNumber data) (Inputs.address data)
  | Password => Inputs.mk (Inputs.name data) (Inputs.email data) v
      (Inputs.confirmPassword data) (Inputs.specialization data)
      (Inputs.phoneNumber data) (Inputs.address data)
  | ConfirmPassword => Inputs.mk (Inputs.name data) (Inputs.email data)
      (Inputs.password data) v (Inputs.specialization data)
      (Inputs.phoneNumber data) (Inputs.address data)
  | PhoneNumber => Inputs.mk (Inputs.name data) (Inputs.email data)
      (Inputs.password data) (Inputs.confirmPassword data)
      (Inputs.specialization data) v (Inputs.address data)
  | Address => Inputs.mk (Inputs.name data) (Inputs.email data)
      (Inputs.password data) (Inputs.confirmPassword data)
      (Inputs.specialization data) (Inputs.phoneNumber data) v
  end.

Section Transitions.
Context {E : Engine}.

(** What can happen to the page.  [Input] is typing into a text
    control.  [ServiceChange] is choosing an option of the select: the
    select then holds that option's value and [handleServiceChange]
    runs, which has replaced the [onChange] of [register].
    [Select_blur] is the [onBlur] that [register] attached to the
    select: it copies what the select holds into the field value.
    [Submit] is a submission of the form, which the browser refuses
    while the submit button is disabled.  [Sign_in_link] is a click on
    the link to [/doctor/login].  The last two are the promises of a
    parked [onSubmit] settling. *)
Inductive event : Type :=
| GetServices_fulfilled (data : list Service)
| GetServices_rejected (reason : Exception)
| Input (c : control) (v : string)
| ServiceChange (e_target_value : string)
| Select_blur
| Submit
| Sign_in_link
| Fetch_settles (i : nat) (r : settled Response)
| Body_read (i : nat).

Definition initial (storage : gmap string string) : Config :=
  {| hooks := mount;
     browser := {| localStorage := storage; trace := [] |};
     fetchingServices := true;
     in_flight := [] |}.

(** The page is on screen until the router shows another route. *)
Definition mounted (c : Config) : bool :=
  match location (browser c) with
  | None => true
  | Some _ => false
  end.

Definition with_hooks (st : Hooks) (c : Config) : Config :=
  {| hooks := st; browser := browser c;
     fetchingServices := fetchingServices c; in_flight := in_flight c |}.

(** Run [p] to its next [await]; [others] are the calls that stay
    parked.  The setters of a component that has left the screen do
    nothing, so its hooks stay as they were when it left. *)
Definition resume (p : prog unit) (others : list waiting) (c : Config) : Config :=
  let '(st, w, s) := advance p (hooks c) (browser c) in
  {| hooks := if mounted c then st else hooks c; browser := w;
     fetchingServices := fetchingServices c;
     in_flight := match s with
                  | Waiting x => others ++ [x]
                  | Done | Uncaught _ => others
                  end |}.

(** One event, or [None] when it cannot happen.  The mount effect calls
    [getServices()] once, and [setServices] runs when it is fulfilled;
    form events need the page on screen; the select can only be put on
    one of its options; a submission also needs the button enabled and
    goes through [handleSubmit(onSubmit)]; a settled promise resumes
    the [onSubmit] call parked on it, on screen or not. *)
Definition step (c : Config) (ev : event) : option Config :=
  match ev with
  | GetServices_fulfilled data =>
      if fetchingServices c
      then Some {| hooks := if mounted c then with_services data (hooks c) else hooks c;
                   browser := browser c;
                   fetchingServices := false;
                   in_flight := in_flight c |}
      else None
  | GetServices_rejected _ =>
      if fetchingServices c
      then Some {| hooks := hooks c; browser := browser c;
                   fetchingServices := false; in_flight := in_flight c |}
      else None
  | Input ctl v =>
      if mounted c
      then Some (with_hooks (with_values (write_control ctl v (values (hooks c))) (hooks c)) c)
      else None
  | ServiceChange v =>
      if mounted c && bool_decide (v ∈ (select_options (hooks c)).*1)
      then Some (with_hooks
                   (handleServiceChange v (with_select_value v (hooks c))) c)
      else None
  | Select_blur =>
      if mounted c
      then Some (with_hooks
                   (with_values
                      (Inputs.setValue_specialization
                         (select_value (hooks c)) (values (hooks c)))
                      (hooks c)) c)
      else None
  | Sign_in_link =>
      if mounted c
      then Some {| hooks := hooks c;
                   browser := perform (Navigated "/doctor/login") (browser c);
                   fetchingServices := fetchingServices c;
                   in_flight := in_flight c |}
      else None
  | Submit =>
      if mounted c && negb (submit_disabled (hooks c))
      then
        let '(st, p) := handleSubmit (onSubmit (services (hooks c))) (hooks c) in
        Some (resume p (in_flight c) (with_hooks st c))
      else None
  | Fetch_settles i r =>
      match in_flight c !! i with
      | Some (Awaiting_fetch k) => Some (resume (k r) (delete i (in_flight c)) c)
      | _ => None
      end
  | Body_read i =>
      match in_flight c !! i with
      | Some (Awaiting_json response k) =>
          Some (resume (k (json_body response)) (delete i (in_flight c)) c)
      | _ => None
      end
  end.

Inductive reachable : Config -> Prop :=
| reachable_initial storage : reachable (initial storage)
| reachable_step c ev c' : reachable c -> step c ev = Some c' -> reachable c'.

Inductive phase : Type :=
| Idle
| Submitting
| Left (to : string).

Definition phase_of (c : Config) : phase :=
  match location (browser c) with
  | Some to => Left to
  | None => if isLoading (hooks c) then Submitting else Idle
  end.

(** The hooks after [onSubmit]'s [catch] and [finally] have run for
    [err]. *)
Definition failed (err : Exception) (st : Hooks) : Hooks :=
  with_isLoading false
    (with_error
       (Some (or_else_string (message err) "Registration failed. Please try again.")) st).

(** The details [handleServiceChange] displays for a service. *)
Definition details_of (s : Service) : Details.t :=
  {| Details.duration := Service.duration s; Details.price := Service.price s |}.

(** The configuration after a list of events, if each was possible. *)
Fixpoint steps (c : Config) (evs : list event) : option Config :=
  match evs with
  | [] => Some c
  | ev :: rest =>
      match step c ev with
      | Some c' => steps c' rest
      | None => None
      end
  end.

(** What holds between any two events: while the service list is still
    being fetched it is empty and nothing is parked; the select holds
    the value of one of its options; at most one [onSubmit] call is
    parked, it is parked at one of its two [await]s with the rest of
    [onSubmit] to run, and then [isLoading] is set, with no error on
    display; with nothing parked and the page on screen, [isLoading] is
    not set. *)
Definition consistent (c : Config) : Prop :=
  (fetchingServices c = true -> services (hooks c) = [] /\ in_flight c = [])
  /\ select_value (hooks c) ∈ (select_options (hooks c)).*1
  /\ match in_flight c with
     | [] => mounted c = true -> isLoading (hooks c) = false
     | [Awaiting_fetch k] =>
         k = onSubmit_after_fetch /\ isLoading (hooks c) = true
         /\ error (hooks c) = None
     | [Awaiting_json response k] =>
         k = onSubmit_after_json response /\ isLoading (hooks c) = true
         /\ error (hooks c) = None
     | _ :: _ :: _ => False
     end.

(** A response that registers the doctor: it is [ok], its body parses,
    a token can be read from [data.token] and made a string, and
    [data.user] is an object to read from. *)
Definition accepted (response : Response) : Prop :=
  ok response = true
  /\ exists result token tok user,
       json_body response = Fulfilled result
       /\ Get_path result ["data"; "token"] = inr token
       /\ ToString token = inr tok
       /\ Get_path result ["data"; "user"] = inr user
       /\ user <> VUndefined /\ user <> VNull.
End Transitions.

(** ** An engine to run the page on

    Integers for numbers, V8's wording for the [TypeError], the default
    [Object.prototype.toString] and [Array.prototype.join] for
    [ToString], and compact JSON output that leaves [undefined]
    properties out. *)

Module Sample.
Definition dquote : string := String (ascii_of_nat 34) EmptyString.
Definition backslash : string := String (ascii_of_nat 92) EmptyString.

Fixpoint escape (s : string) : string :=
  match s with
  | EmptyString => EmptyString
  | String c rest =>
      (if Ascii.eqb c (ascii_of_nat 34) then backslash +:+ dquote
       else if Ascii.eqb c (ascii_of_nat 92) then backslash +:+ backslash
       else String c EmptyString) +:+ escape rest
  end.

Definition quote (s : string) : string := dquote +:+ escape s +:+ dquote.

Fixpoint join (sep : string) (parts : list string) : string :=
  match parts with
  | [] => EmptyString
  | [p] => p
  | p :: rest => p +:+ sep +:+ join sep rest
  end.

Fixpoint stringify (v : json Z) : option string :=
  match v with
  | VUndefined => None
  | VNull => Some "null"
  | VBool true => Some "true"
  | VBool false => Some "false"
  | VNum n => Some (pretty n)
  | VStr s => Some (quote s)
  | VArr items =>
      Some ("[" +:+ join "," (map (fun x => default "null" (stringify x)) items) +:+ "]")
  | VObj props =>
      Some ("{" +:+ join ","
              ((fix members (l : list (string * json Z)) : list string :=
                  match l with
                  | [] => []
                  | (k, x) :: rest =>
                      match stringify x with
                      | Some s => (quote k +:+ ":" +:+ s) :: members rest
                      | None => members rest
                      end
                  end) props) +:+ "}")
  end.

Fixpoint to_string (v : json Z) : string :=
  match v with
  | VUndefined => "undefined"
  | VNull => "null"
  | VBool true => "true"
  | VBool false => "false"
  | VNum n => pretty n
  | VStr s => s
  | VArr items =>
      join "," (map (fun x => match x with
                              | VUndefined | VNull => EmptyString
                              | _ => to_string x
                              end) items)
  | VObj _ => "[object Object]"
  end.

#[export] Instance engine : Engine := {|
  number := Z;
  Number_ToBoolean n := negb (Z.eqb n 0);
  Number_toString n := pretty n;
  Object_ToString v := inr (to_string v);
  JSON_stringify v := default "undefined" (stringify v);
  TypeError_read v P :=
    new_Error ("Cannot read properties of " +:+ to_string v
               +:+ " (reading '" +:+ P +:+ "')")
|}.

Definition cardiology : Service :=
  {| Service._id := "s1"; Service.name := "Cardiology";
     Service.description := "Heart"; Service.duration := 30%Z; Service.price := 100%Z |}.

Definition dermatology : Service :=
  {| Service._id := "s2"; Service.name := "Dermatology";
     Service.description := "Skin"; Service.duration := 20%Z; Service.price := 80%Z |}.

Definition dr_doe : RegisterFormInputs :=
  {| Inputs.name := "Dr. John Doe"; Inputs.email := "doctor@example.com";
     Inputs.password := "secret1"; Inputs.confirmPassword := "secret1";
     Inputs.specialization := "Cardiology";
     Inputs.phoneNumber := "+1 (555) 000-0000"; Inputs.address := "1 Main St" |}.

Definition page : Hooks :=
  with_values dr_doe (with_services [cardiology; dermatology] mount).

Definition blank_browser : Browser := {| localStorage := ∅; trace := [] |}.

(** A [201] answer in the shape the page expects. *)
Definition created : Response :=
  {| ok := true;
     json_body := Fulfilled (VObj
       [ ("data", VObj
           [ ("token", VStr "tok-123");
             ("user", VObj [ ("id", VNum 7%Z); ("name", VStr "Dr. John Doe");
                             ("email", VStr "doctor@example.com");
                             ("role", VStr "admin");
                             ("specialization", VStr "Cardiology") ]) ]) ]) |}.

(** A [409] answer with a message. *)
Definition email_exists : Response :=
  {| ok := false;
     json_body := Fulfilled (VObj [ ("message", VStr "Email exists") ]) |}.


(** A [500] answer whose body is the JSON text [null]. *)
Definition null_body : Response :=
  {| ok := false; json_body := Fulfilled VNull |}.

(** A visit: the services arrive, the doctor picks one, fills the form
    in and submits it. *)
Definition visit : list event :=
  [ GetServices_fulfilled [cardiology; dermatology];
    ServiceChange "Cardiology";
    Input Name "Dr. John Doe";
    Input Email "doctor@example.com";
    Input PhoneNumber "+1 (555) 000-0000";
    Input Address "1 Main St";
    Input Password "secret1";
    Input ConfirmPassword "secret1";
    Submit ].

(** The page after [visit], waiting for the registration response. *)
Definition submitted : Config :=
  default (initial ∅) (steps (initial ∅) visit).

(** The same visit once the server has answered [201], the body still
    to be read. *)
Definition answered : Config :=
  default (initial ∅)
    (steps (initial ∅) (visit ++ [Fetch_settles 0 (Fulfilled created)])).

(** The form inputs with a specialization no service has. *)
Definition neurology : RegisterFormInputs :=
  Inputs.setValue_specialization "Neurology" dr_doe.

(** The form inputs with a confirmation that differs. *)
Definition mistyped : Hooks :=
  with_values (write_control ConfirmPassword "secret2" dr_doe) page.
End Sample.

(** ** What a regular expression matches

    The strings a [regex] denotes, as sequences of code units; [test]
    is checked against this. *)
Inductive matches : regex -> list ascii -> Prop :=
| matches_Epsilon : matches Epsilon []
| matches_Class p c : p c = true -> matches (Class p) [c]
| matches_Cat r1 r2 s1 s2 :
    matches r1 s1 -> matches r2 s2 -> matches (Cat r1 r2) (s1 ++ s2)
| matches_Alt_l r1 r2 s : matches r1 s -> matches (Alt r1 r2) s
| matches_Alt_r r1 r2 s : matches r2 s -> matches (Alt r1 r2) s
| matches_Star_nil r : matches (Star r) []
| matches_Star_app r s1 s2 :
    matches r s1 -> matches (Star r) s2 -> matches (Star r) (s1 ++ s2).

(** The two character classes of the e-mail pattern, under the [i]
    flag. *)
Definition local_char (c : ascii) : bool := letter c || digit c || one_of "._%+-" c.
Definition domain_char (c : ascii) : bool := letter c || digit c || one_of ".-" c.

Section Expectations.
Context {E : Engine}.

(** The request [onSubmit] sends, written out. *)
Definition the_request (data : RegisterFormInputs) : effect :=
  Fetched register_url (register_request data).

(** The effects one [onSubmit] call can have on the browser: none; the
    request alone; the request and the token; or the request, the
    token, the user summary and the navigation. *)
Inductive onSubmit_effects (data : RegisterFormInputs) : list effect -> Prop :=
| effects_none : onSubmit_effects data []
| effects_request : onSubmit_effects data [the_request data]
| effects_token tok :
    onSubmit_effects data [the_request data; Stored "token" tok]
| effects_session tok user :
    onSubmit_effects data
      [ the_request data; Stored "token" tok; Stored "user" user;
        Navigated "/doctor/dashboard" ].

(** The events that carry one submission through, for a [fetch] that
    settles with [r]. *)
Definition submission (r : settled Response) : list event :=
  Submit :: Fetch_settles 0 r ::
  match r with
  | Fulfilled _ => [Body_read 0]
  | Rejected _ => []
  end.

(** A page whose service list came back empty or not at all, before
    anything was chosen or sent. *)
Definition without_services (c : Config) : Prop :=
  fetchingServices c = false /\ services (hooks c) = []
  /\ in_flight c = []
  /\ selectedServiceDetails (hooks c) = None
  /\ select_value (hooks c) = "".

(** Entries under other keys than [token] and [user] are those of
    [storage]; the page has left, if at all, for the login page or for
    the dashboard, and for the dashboard only with a token and a user
    summary in storage. *)
Definition session_kept (storage : gmap string string) (w : Browser) : Prop :=
  (forall key, key <> "token" -> key <> "user" ->
     localStorage w !! key = storage !! key)
  /\ (forall to, location w = Some to ->
        to = "/doctor/login"
        \/ (to = "/doctor/dashboard"
            /\ is_Some (localStorage w !! "token")
            /\ is_Some (localStorage w !! "user"))).
End Expectations.

(** ** More of the sample page: answers and visits *)

Module Scenario.
Import Sample.

(** The server cannot be reached. *)
Definition offline : network :=
  fun _ _ => Rejected (new_Error "Failed to fetch").

(** A [200] answer with the body [{}]. *)
Definition no_data : Response :=
  {| ok := true; json_body := Fulfilled (VObj []) |}.

(** A [201] answer with a token and no user. *)
Definition token_only : Response :=
  {| ok := true;
     json_body := Fulfilled (VObj [ ("data", VObj [ ("token", VStr "tok-123") ]) ]) |}.

(** A [201] answer with a user and no token. *)
Definition user_only : Response :=
  {| ok := true;
     json_body := Fulfilled (VObj
       [ ("data", VObj
           [ ("user", VObj [ ("id", VNum 7%Z); ("name", VStr "Dr. John Doe") ]) ]) ]) |}.

(** A second service that is also called Cardiology, longer and
    dearer, and a page whose list holds both, the short one first. *)
Definition cardiology_long : Service :=
  {| Service._id := "s3"; Service.name := "Cardiology";
     Service.description := "Heart, extended";
     Service.duration := 45%Z; Service.price := 150%Z |}.

Definition twins : Hooks :=
  with_services [cardiology; cardiology_long] mount.

(** A browser with an entry of some other part of the application. *)
Definition themed : Browser :=
  {| localStorage := {[ "theme" := "dark" ]}; trace := [] |}.

(** The form filled in, not yet submitted. *)
Definition filling : list event :=
  [ GetServices_fulfilled [cardiology; dermatology];
    ServiceChange "Cardiology";
    Input Name "Dr. John Doe";
    Input Email "doctor@example.com";
    Input PhoneNumber "+1 (555) 000-0000";
    Input Address "1 Main St";
    Input Password "secret1";
    Input ConfirmPassword "secret1" ].

Definition filled : Config :=
  default (initial ∅) (steps (initial ∅) filling).

(** A whole visit that ends on the dashboard. *)
Definition accepted_visit : list event :=
  visit ++ [Fetch_settles 0 (Fulfilled created); Body_read 0].

Definition accepted : Config :=
  default (initial {[ "theme" := "dark" ]})
    (steps (initial {[ "theme" := "dark" ]}) accepted_visit).

(** A visit that ends with the server's refusal on display. *)
Definition refused : Config :=
  default (initial ∅)
    (steps (initial ∅) (visit ++ [Fetch_settles 0 (Fulfilled email_exists); Body_read 0])).

(** The doctor submits, follows the sign-in link while the request is
    in flight, and the server then answers [201]. *)
Definition walked_away : Config :=
  default (initial ∅)
    (steps (initial ∅)
       (visit ++ [Sign_in_link; Fetch_settles 0 (Fulfilled created); Body_read 0])).

(** The sample form filled in, then the select put back on its
    placeholder. *)
Definition reselected : Config :=
  default (initial ∅) (steps (initial ∅) (filling ++ [ServiceChange ""])).

(** The service list never arrives; the doctor fills the form in
    anyway. *)
Definition stranded : Config :=
  default (initial ∅)
    (steps (initial ∅) [GetServices_rejected (new_Error "Network Error")]).

Definition stranded_typing : list event :=
  [ Input Name "Dr. John Doe";
    Input Email "doctor@example.com";
    ServiceChange "";
    Select_blur;
    Input PhoneNumber "+1 (555) 000-0000";
    Input Address "1 Main St";
    Input Password "secret1";
    Input ConfirmPassword "secret1";
    Submit ].

Definition stranded_later : Config :=
  default stranded (steps stranded stranded_typing).
End Scenario.

(** * Properties *)

Section Properties.
Context {E : Engine}.

(** ** How [run] goes through the combinators *)

Lemma run_bind {A B : Type} (net : network) (p : prog A) (f : A -> prog B) st w :
  run net (bind p f) st w =
  match run net p st w with
  | (st1, w1, inr a) => run net (f a) st1 w1
  | (st1, w1, inl e) => (st1, w1, inl e)
  end.
Proof.
  revert st w.
  induction p as [a|e|b k IH|e k IH|key val k IH|to k IH|url init k IH|response k IH];
    intros st w; cbn; auto.
Qed.

Lemma run_try_catch {A : Type} (net : network) (body : prog A) handler st w :
  run net (try_catch body handler) st w =
  match run net body st w with
  | (st1, w1, inr a) => (st1, w1, inr a)
  | (st1, w1, inl e) => run net (handler e) st1 w1
  end.
Proof.
  revert st w.
  induction body as [a|e|b k IH|e k IH|key val k IH|to k IH|url init k IH|response k IH];
    intros st w; cbn; auto.
Qed.

Lemma run_try_finally {A : Type} (net : network) (body : prog A) finalizer st w :
  run net (try_finally body finalizer) st w =
  match run net body st w with
  | (st1, w1, inr a) =>
      match run net finalizer st1 w1 with
      | (st2, w2, inr _) => (st2, w2, inr a)
      | (st2, w2, inl e') => (st2, w2, inl e')
      end
  | (st1, w1, inl e) =>
      match run net finalizer st1 w1 with
      | (st2, w2, inr _) => (st2, w2, inl e)
      | (st2, w2, inl e') => (st2, w2, inl e')
      end
  end.
Proof.
  revert st w.
  induction body as [a|e|b k IH|e k IH|key val k IH|to k IH|url init k IH|response k IH];
    intros st w; cbn -[bind]; auto.
  - rewrite run_bind. destruct (run net finalizer st w) as [[? ?] [?|?]]; reflexivity.
  - rewrite run_bind. destruct (run net finalizer st w) as [[? ?] [?|?]]; reflexivity.
Qed.

(** [onSubmit] runs its [try] block, then shows the message of whatever
    the block threw, then clears [isLoading]; nothing escapes it. *)
Lemma run_onSubmit (net : network) svcs data st w :
  run net (onSubmit svcs data) st w =
  match run net (onSubmit_try svcs data) st w with
  | (st1, w1, inr _) => (with_isLoading false st1, w1, inr tt)
  | (st1, w1, inl err) =>
      (with_isLoading false
         (with_error
            (Some (or_else_string (message err) "Registration failed. Please try again."))
            st1),
       w1, inr tt)
  end.
Proof.
  unfold onSubmit, try_catch_finally.
  rewrite run_try_finally, run_try_catch.
  destruct (run net (onSubmit_try svcs data) st w) as [[st1 w1] [err|[]]]; reflexivity.
Qed.

Lemma run_eval {A : Type} (net : network) (r : Exception + A) st w :
  run net (eval r) st w = (st, w, r).
Proof. destruct r; reflexivity. Qed.

Lemma run_onSubmit_settle (net : network) response result st w :
  run net (onSubmit_settle response result) st w =
  if negb (ok response) then (st, w, inl (rejection result))
  else
    match Get_path result ["data"; "token"] with
    | inl e => (st, w, inl e)
    | inr token =>
        match ToString token with
        | inl e => (st, w, inl e)
        | inr tok =>
            let w1 := perform (Stored "token" tok) w in
            match user_summary result with
            | inl e => (st, w1, inl e)
            | inr summary =>
                (st,
                 perform (Navigated "/doctor/dashboard")
                   (perform (Stored "user" (JSON_stringify summary)) w1),
                 inr tt)
            end
        end
    end.
Proof.
  unfold onSubmit_settle, rejection, localStorage_setItem, Error, navigate.
  unfold mbind, mret, prog_bind, prog_ret.
  destruct (ok response); cbn -[Get_path user_summary].
  - destruct (Get_path result ["data"; "token"]) as [e|token]; cbn -[Get_path user_summary]; [reflexivity|].
    destruct (ToString token) as [e|tok]; cbn -[Get_path user_summary]; [reflexivity|].
    destruct (user_summary result) as [e|summary]; reflexivity.
  - destruct (Get result "message") as [e|m]; cbn; [reflexivity|].
    destruct (ToString (or_else m (VStr "Registration failed"))); reflexivity.
Qed.

Lemma run_onSubmit_try (net : network) svcs data st w :
  run net (onSubmit_try svcs data) st w =
  let st1 := with_error None (with_isLoading true st) in
  match find_service svcs (Inputs.specialization data) with
  | None => (st1, w, inl (new_Error "Please select a valid specialization"))
  | Some _ =>
      let w1 := perform (Fetched register_url (register_request data)) w in
      match net register_url (register_request data) with
      | Rejected reason => (st1, w1, inl reason)
      | Fulfilled response =>
          match json_body response with
          | Rejected reason => (st1, w1, inl reason)
          | Fulfilled result => run net (onSubmit_settle response result) st1 w1
          end
      end
  end.
Proof.
  unfold onSubmit_try, fetch, response_json, setIsLoading, setError.
  unfold mbind, mret, prog_bind, prog_ret.
  destruct (find_service svcs (Inputs.specialization data)) as [s|]; cbn -[onSubmit_settle].
  - destruct (net register_url (register_request data)) as [response|reason];
      cbn -[onSubmit_settle]; [|reflexivity].
    destruct (json_body response) as [result|reason]; cbn -[onSubmit_settle]; reflexivity.
  - reflexivity.
Qed.

Lemma find_service_None svcs v :
  find_service svcs v = None <-> (forall s, s ∈ svcs -> Service.name s <> v).
Proof.
  unfold find_service. induction svcs as [|x l IH]; cbn.
  - split; [intros _ s Hs; inversion Hs | reflexivity].
  - destruct (String.eqb_spec (Service.name x) v) as [Heq|Hne].
    + split; [discriminate|]. intros H. exfalso. apply (H x); [left | exact Heq].
    + rewrite IH. split.
      * intros H s Hs. apply elem_of_cons in Hs as [->|Hs]; auto.
      * intros H s Hs. apply H. now right.
Qed.

Lemma find_service_Some svcs v s :
  find_service svcs v = Some s -> s ∈ svcs /\ Service.name s = v.
Proof.
  unfold find_service. intros H. apply find_some in H as [Hin Heq].
  split; [now apply list_elem_of_In | now apply String.eqb_eq].
Qed.

(** ** Submission *)

(** C1.  When the submitted specialization is the name of no service in
    the list, [onSubmit] ends with the error "Please select a valid
    specialization" on display and the browser untouched: nothing was
    fetched, stored or navigated, whatever the network would have
    answered; the handler never reaches an [await]. *)
Theorem onSubmit_unknown_specialization (net : network) svcs data st w :
  (forall s, s ∈ svcs -> Service.name s <> Inputs.specialization data) ->
  run net (onSubmit svcs data) st w =
    (with_isLoading false
       (with_error (Some "Please select a valid specialization") st), w, inr tt)
  /\ advance (onSubmit svcs data) st w =
    (with_isLoading false
       (with_error (Some "Please select a valid specialization") st), w, Done).
Proof.
  intros Hnone. apply (proj2 (find_service_None _ _)) in Hnone. split.
  - rewrite run_onSubmit, run_onSubmit_try, Hnone. reflexivity.
  - unfold onSubmit, onSubmit_try, try_catch_finally.
    unfold mbind, mret, prog_bind, prog_ret.
    rewrite Hnone. reflexivity.
Qed.

(** C3.  When the submitted specialization names a service, [onSubmit]
    sends exactly one request, a POST to the registration endpoint whose
    body is the JSON text of the object with the fields name, email,
    password, specialization, phoneNumber and address of the form
    inputs and role "doctor". *)
Theorem onSubmit_request_body (net : network) svcs data st w :
  is_Some (find_service svcs (Inputs.specialization data)) ->
  exists st' w' later,
    run net (onSubmit svcs data) st w = (st', w', inr tt)
    /\ trace w' =
         trace w ++
         Fetched "http://localhost:5000/api/auth/doctor/register"
           {| method := "POST";
              headers := [("Content-Type", "application/json")];
              body := JSON_stringify (VObj
                [ ("name", VStr (Inputs.name data));
                  ("email", VStr (Inputs.email data));
                  ("password", VStr (Inputs.password data));
                  ("specialization", VStr (Inputs.specialization data));
                  ("phoneNumber", VStr (Inputs.phoneNumber data));
                  ("address", VStr (Inputs.address data));
                  ("role", VStr "doctor") ]) |} :: later
    /\ filter is_fetch later = [].
Proof.
  intros [s Hs].
  rewrite run_onSubmit, run_onSubmit_try, Hs. cbn zeta.
  destruct (net register_url (register_request data)) as [response|reason].
  2: { eexists _, _, []. repeat split. }
  destruct (json_body response) as [result|reason].
  2: { eexists _, _, []. repeat split. }
  rewrite run_onSubmit_settle.
  destruct (negb (ok response)).
  { eexists _, _, []. repeat split. }
  destruct (Get_path result ["data"; "token"]) as [e|token].
  { eexists _, _, []. repeat split. }
  destruct (ToString token) as [e|tok].
  { eexists _, _, []. repeat split. }
  cbn zeta. destruct (user_summary result) as [e|summary].
  - eexists _, _, [_]. split; [reflexivity|].
    split; [cbn; rewrite <- app_assoc; reflexivity | reflexivity].
  - eexists _, _, [_; _; _]. split; [reflexivity|].
    split; [cbn; rewrite <- !app_assoc; reflexivity | reflexivity].
Qed.

(** C2.  When the response is [ok] and its body carries the string [t]
    at [data.token], the storage entry [token] is exactly [t] once
    [onSubmit] has returned. *)
Theorem onSubmit_stores_token (net : network) svcs data st w response result t :
  is_Some (find_service svcs (Inputs.specialization data)) ->
  net register_url (register_request data) = Fulfilled response ->
  ok response = true ->
  json_body response = Fulfilled result ->
  Get_path result ["data"; "token"] = inr (VStr t) ->
  exists st' w',
    run net (onSubmit svcs data) st w = (st', w', inr tt)
    /\ localStorage w' !! "token" = Some t.
Proof.
  intros [s Hs] Hnet Hok Hbody Htoken.
  rewrite run_onSubmit, run_onSubmit_try, Hs. cbn zeta.
  rewrite Hnet, Hbody, run_onSubmit_settle, Hok, Htoken. cbn -[user_summary].
  destruct (user_summary result) as [e|summary].
  - eexists _, _. split; [reflexivity|]. cbn. apply lookup_insert_eq.
  - eexists _, _. split; [reflexivity|]. cbn.
    rewrite lookup_insert_ne by discriminate. apply lookup_insert_eq.
Qed.

(** The [try] block touches the hooks only in its first two
    statements. *)
Lemma run_onSubmit_settle_hooks (net : network) response result st w :
  (run net (onSubmit_settle response result) st w).1.1 = st.
Proof.
  rewrite run_onSubmit_settle.
  destruct (negb (ok response)); [reflexivity|].
  destruct (Get_path result ["data"; "token"]) as [e|token]; [reflexivity|].
  destruct (ToString token) as [e|tok]; [reflexivity|].
  cbn zeta. destruct (user_summary result); reflexivity.
Qed.

Lemma run_onSubmit_try_hooks (net : network) svcs data st w :
  (run net (onSubmit_try svcs data) st w).1.1 = with_error None (with_isLoading true st).
Proof.
  rewrite run_onSubmit_try. cbn zeta.
  destruct (find_service svcs (Inputs.specialization data)); [|reflexivity].
  destruct (net register_url (register_request data)) as [response|]; [|reflexivity].
  destruct (json_body response) as [result|]; [|reflexivity].
  apply run_onSubmit_settle_hooks.
Qed.

Lemma or_else_string_nonempty (a b : string) : b <> "" -> or_else_string a b <> "".
Proof.
  intros Hb. unfold or_else_string.
  destruct (String.eqb_spec a ""); assumption.
Qed.

(** C10.  [onSubmit] always returns normally: whatever its [try] block
    throws (the validation error, a rejected [fetch], a rejected
    [response.json()], the error made for a response that is not [ok],
    a [TypeError] on a malformed body) ends up as the displayed error
    string, which is then never empty, and [isLoading] is false when it
    returns, also when the block ran to its end and nothing is
    displayed. *)
Theorem onSubmit_total (net : network) svcs data st w :
  exists st' w',
    run net (onSubmit svcs data) st w = (st', w', inr tt)
    /\ isLoading st' = false
    /\ match (run net (onSubmit_try svcs data) st w).2 with
       | inl err =>
           error st' =
             Some (or_else_string (message err) "Registration failed. Please try again.")
           /\ error st' <> Some ""
       | inr _ => error st' = None
       end.
Proof.
  rewrite run_onSubmit.
  pose proof (run_onSubmit_try_hooks net svcs data st w) as Hst.
  destruct (run net (onSubmit_try svcs data) st w) as [[st1 w1] [err|[]]]; cbn in *.
  - eexists _, _. split; [reflexivity|]. split; [reflexivity|]. cbn.
    split; [reflexivity|]. intros [= H]. revert H.
    apply or_else_string_nonempty. discriminate.
  - eexists _, _. split; [reflexivity|]. split; [reflexivity|].
    cbn. rewrite Hst. reflexivity.
Qed.

Lemma Get_defined (v : value) (P : string) :
  v <> VUndefined -> v <> VNull -> exists x, Get v P = inr x.
Proof. destruct v; intros; try contradiction; eexists; reflexivity. Qed.


(** C9.  When the response is [ok] and its body has a token and a user
    object, the storage entry [user] is the JSON text of an object whose
    [role] is the literal "doctor" and whose [id], [name], [email] and
    [specialization] are those properties of the response's user,
    whatever other properties (a [role] among them) that user has. *)
Theorem onSubmit_stores_user (net : network) svcs data st w response result token tok user :
  is_Some (find_service svcs (Inputs.specialization data)) ->
  net register_url (register_request data) = Fulfilled response ->
  ok response = true ->
  json_body response = Fulfilled result ->
  Get_path result ["data"; "token"] = inr token ->
  ToString token = inr tok ->
  Get_path result ["data"; "user"] = inr user ->
  user <> VUndefined -> user <> VNull ->
  exists st' w' id name email specialization,
    run net (onSubmit svcs data) st w = (st', w', inr tt)
    /\ Get user "id" = inr id
    /\ Get user "name" = inr name
    /\ Get user "email" = inr email
    /\ Get user "specialization" = inr specialization
    /\ localStorage w' !! "user" =
         Some (JSON_stringify (VObj
           [ ("id", id);
             ("name", name);
             ("email", email);
             ("role", VStr "doctor");
             ("specialization", specialization) ])).
Proof.
  intros [s Hs] Hnet Hok Hbody Htoken Htok Huser Hu Hn.
  destruct (Get_defined "id" Hu Hn) as [id Hid].
  destruct (Get_defined "name" Hu Hn) as [name Hname].
  destruct (Get_defined "email" Hu Hn) as [email Hemail].
  destruct (Get_defined "specialization" Hu Hn) as [spec Hspec].
  assert (Hsum : user_summary result = inr (VObj
           [ ("id", id); ("name", name); ("email", email);
             ("role", VStr "doctor"); ("specialization", spec) ])).
  { unfold user_summary. cbn in Huser |- *.
    destruct (Get result "data") as [e|d]; [discriminate|].
    destruct (Get d "user") as [e|u]; [discriminate|].
    injection Huser as ->.
    rewrite Hid, Hname, Hemail, Hspec. reflexivity. }
  rewrite run_onSubmit, run_onSubmit_try, Hs. cbn zeta.
  rewrite Hnet, Hbody, run_onSubmit_settle, Hok, Htoken, Htok, Hsum. cbn.
  eexists _, _, id, name, email, spec.
  split; [reflexivity|]. repeat (split; [assumption|]).
  cbn. apply lookup_insert_eq.
Qed.

(** ** Selecting a service *)

Lemma find_service_unique svcs v s :
  NoDup (map Service.name svcs) -> s ∈ svcs -> Service.name s = v ->
  find_service svcs v = Some s.
Proof.
  unfold find_service. induction svcs as [|x l IH]; intros Hnd Hin Hname.
  - inversion Hin.
  - cbn in Hnd |- *. apply NoDup_cons in Hnd as [Hx Hnd].
    apply elem_of_cons in Hin as [->|Hin].
    + rewrite Hname, String.eqb_refl. reflexivity.
    + destruct (String.eqb_spec (Service.name x) v) as [Heq|Hne]; [|now apply IH].
      exfalso. apply Hx. rewrite Heq, <- Hname. now apply list_elem_of_fmap_2.
Qed.

Lemma find_service_first svcs v s :
  find_service svcs v = Some s <->
  exists before after,
    svcs = before ++ s :: after /\ Service.name s = v
    /\ forall x, x ∈ before -> Service.name x <> v.
Proof.
  unfold find_service. induction svcs as [|y l IH]; cbn.
  - split; [discriminate|]. intros (before & after & Heq & _).
    destruct before; discriminate.
  - destruct (String.eqb_spec (Service.name y) v) as [Hy|Hy].
    + split.
      * intros [= <-]. exists [], l. split; [reflexivity|]. split; [exact Hy|].
        intros x Hx. inversion Hx.
      * intros (before & after & Heq & Hs & Hfirst).
        destruct before as [|b before]; cbn in Heq; injection Heq as Hb Hl.
        -- now subst.
        -- exfalso. apply (Hfirst y); [rewrite Hb; left|exact Hy].
    + rewrite IH. split.
      * intros (before & after & -> & Hs & Hfirst).
        exists (y :: before), after. split; [reflexivity|]. split; [exact Hs|].
        intros x Hx. apply elem_of_cons in Hx as [->|Hx]; auto.
      * intros (before & after & Heq & Hs & Hfirst).
        destruct before as [|b before]; cbn in Heq; injection Heq as Hb Hl.
        -- subst. contradiction.
        -- exists before, after. split; [exact Hl|]. split; [exact Hs|].
           intros x Hx. apply Hfirst. now right.
Qed.

(** C4, as the code has it.  [handleServiceChange] looks the selected
    name up.  If services of the list have that name, the
    specialization field becomes the name and the displayed details
    become the duration and price of the first of them in list order,
    nothing else changing; when no name is repeated in the list that is
    the one service so named.  If no service has the name, the state is
    left as it was. *)
Theorem handleServiceChange_first_match (v : string) (st : Hooks) :
  (forall before s after,
     services st = before ++ s :: after ->
     Service.name s = v ->
     (forall x, x ∈ before -> Service.name x <> v) ->
     Inputs.specialization (values (handleServiceChange v st)) = v
     /\ selectedServiceDetails (handleServiceChange v st) =
          Some {| Details.duration := Service.duration s;
                  Details.price := Service.price s |}
     /\ handleServiceChange v st =
          with_selectedServiceDetails
            (Some {| Details.duration := Service.duration s;
                     Details.price := Service.price s |})
            (setValue_specialization v st))
  /\ ((exists s, s ∈ services st /\ Service.name s = v) ->
      exists before s after,
        services st = before ++ s :: after /\ Service.name s = v
        /\ forall x, x ∈ before -> Service.name x <> v)
  /\ (NoDup (map Service.name (services st)) ->
      forall s, s ∈ services st -> Service.name s = v ->
      selectedServiceDetails (handleServiceChange v st) =
        Some {| Details.duration := Service.duration s;
                Details.price := Service.price s |})
  /\ ((forall s, s ∈ services st -> Service.name s <> v) ->
      handleServiceChange v st = st).
Proof.
  split; [|split; [|split]].
  - intros before s after Hl Hname Hfirst.
    assert (Hfind : find_service (services st) v = Some s).
    { apply find_service_first. exists before, after. auto. }
    unfold handleServiceChange. rewrite Hfind, Hname. repeat split.
  - intros (s & Hin & Hname).
    destruct (find_service (services st) v) as [s'|] eqn:Hfind.
    + apply find_service_first in Hfind as (before & after & Hl & Hs & Hfirst).
      exists before, s', after. auto.
    + exfalso. exact (proj1 (find_service_None _ _) Hfind s Hin Hname).
  - intros Hnd s Hin Hname.
    pose proof (find_service_unique Hnd Hin Hname) as Hfind.
    unfold handleServiceChange. rewrite Hfind. reflexivity.
  - intros Hnone. apply (proj2 (find_service_None _ _)) in Hnone.
    unfold handleServiceChange. rewrite Hnone. reflexivity.
Qed.

(** ** Field validation *)

Lemma isEmpty_false r x : isEmpty r x = false <-> x <> "" /\ r <> "".
Proof.
  unfold isEmpty.
  destruct (String.eqb_spec x ""), (String.eqb_spec r ""); cbn;
    split; try discriminate; try tauto; intros [? ?]; contradiction.
Qed.

Lemma validateField_required rules msg r x :
  required rules = Some msg -> validateField rules r x = None ->
  x <> "" /\ r <> "".
Proof.
  intros Hreq Hval. apply isEmpty_false.
  unfold validateField, first_error, check_required in Hval.
  rewrite Hreq in Hval. destruct (isEmpty r x); [discriminate|reflexivity].
Qed.

Lemma validateField_minLength rules n msg r x :
  minLength rules = Some (n, msg) -> isEmpty r x = false ->
  validateField rules r x = None ->
  n <= String.length x.
Proof.
  intros Hmin Hx Hval. unfold validateField, first_error, check_minLength in Hval.
  rewrite Hmin, Hx in Hval.
  destruct (check_required rules r x); [discriminate|].
  cbn [negb andb] in Hval.
  destruct (Nat.ltb_spec (String.length x) n); [discriminate|assumption].
Qed.

Lemma validateField_validate rules f r x :
  validate rules = Some f -> validateField rules r x = None -> f x = None.
Proof.
  intros Hf Hval. unfold validateField, first_error, check_validate in Hval.
  rewrite Hf in Hval.
  destruct (check_required rules r x); [discriminate|].
  destruct (check_minLength rules r x); [discriminate|].
  destruct (check_pattern rules r x); [discriminate|].
  destruct (f x); [discriminate|reflexivity].
Qed.

(** A form without field errors has every field filled in, a password
    of six code units or more, and the confirmation equal to it. *)
Lemma validateFields_registered_nil held data :
  validateFields (registered (Inputs.password data)) held data = [] ->
  Inputs.name data <> "" /\ Inputs.email data <> "" /\
  Inputs.specialization data <> "" /\ Inputs.phoneNumber data <> "" /\
  Inputs.address data <> "" /\ Inputs.password data <> "" /\
  Inputs.confirmPassword data <> "" /\
  6 <= String.length (Inputs.password data) /\
  Inputs.confirmPassword data = Inputs.password data.
Proof.
  unfold validateFields, registered. cbn [omap list_omap].
  destruct (validateField _ _ (Inputs.name data)) eqn:H1; [discriminate|].
  destruct (validateField _ _ (Inputs.email data)) eqn:H2; [discriminate|].
  destruct (validateField _ _ (Inputs.specialization data)) eqn:H3; [discriminate|].
  destruct (validateField _ _ (Inputs.phoneNumber data)) eqn:H4; [discriminate|].
  destruct (validateField _ _ (Inputs.address data)) eqn:H5; [discriminate|].
  destruct (validateField _ _ (Inputs.password data)) eqn:H6; [discriminate|].
  destruct (validateField _ _ (Inputs.confirmPassword data)) eqn:H7; [discriminate|].
  intros _.
  assert (Inputs.name data <> "")
    by (eapply proj1, validateField_required; [|exact H1]; reflexivity).
  assert (Inputs.email data <> "")
    by (eapply proj1, validateField_required; [|exact H2]; reflexivity).
  assert (Inputs.specialization data <> "")
    by (eapply proj1, validateField_required; [|exact H3]; reflexivity).
  assert (Inputs.phoneNumber data <> "")
    by (eapply proj1, validateField_required; [|exact H4]; reflexivity).
  assert (Inputs.address data <> "")
    by (eapply proj1, validateField_required; [|exact H5]; reflexivity).
  assert (Hpw : Inputs.password data <> "" /\ Inputs.password held <> "")
    by (eapply validateField_required; [|exact H6]; reflexivity).
  assert (Inputs.confirmPassword data <> "")
    by (eapply proj1, validateField_required; [|exact H7]; reflexivity).
  assert (6 <= String.length (Inputs.password data)).
  { eapply validateField_minLength; [|apply isEmpty_false; exact Hpw|exact H6].
    reflexivity. }
  assert (Hsame : (if String.eqb (Inputs.confirmPassword data) (Inputs.password data)
                   then None else Some "The passwords do not match") = None).
  { change ((fun value => if String.eqb value (Inputs.password data) then None
                          else Some "The passwords do not match")
              (Inputs.confirmPassword data) = None).
    eapply validateField_validate; [|exact H7]. reflexivity. }
  destruct (String.eqb_spec (Inputs.confirmPassword data) (Inputs.password data));
    [|discriminate].
  destruct Hpw as [Hpw _]. repeat split; assumption.
Qed.

(** C6.  When the password has fewer than six code units, or the
    confirmation differs from the password, or any of the seven fields
    is empty, [handleSubmit] records at least one field error and does
    not call the handler it was given: what it runs is the empty
    program, whatever that handler is. *)
Theorem handleSubmit_rejects (onValid : RegisterFormInputs -> prog unit) (st : Hooks) :
  String.length (Inputs.password (values st)) < 6
  \/ Inputs.confirmPassword (values st) <> Inputs.password (values st)
  \/ Inputs.name (values st) = "" \/ Inputs.email (values st) = ""
  \/ Inputs.specialization (values st) = "" \/ Inputs.phoneNumber (values st) = ""
  \/ Inputs.address (values st) = "" \/ Inputs.password (values st) = ""
  \/ Inputs.confirmPassword (values st) = "" ->
  exists errs,
    errs <> [] /\ handleSubmit onValid st = (with_errors errs st, Ret tt).
Proof.
  intros Hbad. unfold handleSubmit.
  destruct (validateFields (registered (Inputs.password (values st))) (refs st)
              (values st)) as [|err errs] eqn:Hval.
  - exfalso. apply validateFields_registered_nil in Hval.
    destruct Hval as (? & ? & ? & ? & ? & ? & ? & ? & ?).
    destruct Hbad as [?|[?|[?|[?|[?|[?|[?|[?|?]]]]]]]]; try contradiction. lia.
  - exists (err :: errs). split; [discriminate|reflexivity].
Qed.

(** The user summary can be built exactly when the body has a
    [data.user] that is neither [undefined] nor [null]. *)
Lemma user_summary_defined result :
  (exists summary, user_summary result = inr summary) <->
  (exists user, Get_path result ["data"; "user"] = inr user
                /\ user <> VUndefined /\ user <> VNull).
Proof.
  unfold user_summary. cbn.
  destruct (Get result "data") as [e|d].
  { split; [intros [? H]; discriminate|intros (? & H & _); discriminate]. }
  destruct (Get d "user") as [e|u].
  { split; [intros [? H]; discriminate|intros (? & H & _); discriminate]. }
  split.
  - intros [summary H]. exists u. split; [reflexivity|].
    destruct u; cbn in H; split; discriminate.
  - intros (user & [= <-] & Hu & Hn).
    destruct (Get_defined "id" Hu Hn) as [x1 ->].
    destruct (Get_defined "name" Hu Hn) as [x2 ->].
    destruct (Get_defined "email" Hu Hn) as [x3 ->].
    destruct (Get_defined "specialization" Hu Hn) as [x4 ->].
    eexists. reflexivity.
Qed.

(** ** The page between events *)

Lemma advance_onSubmit svcs data st w :
  advance (onSubmit svcs data) st w =
  match find_service svcs (Inputs.specialization data) with
  | None =>
      (failed (new_Error "Please select a valid specialization") st, w, Done)
  | Some _ =>
      (with_error None (with_isLoading true st),
       perform (Fetched register_url (register_request data)) w,
       Waiting (Awaiting_fetch onSubmit_after_fetch))
  end.
Proof.
  unfold onSubmit, onSubmit_try, try_catch_finally.
  unfold mbind, mret, prog_bind, prog_ret.
  destruct (find_service svcs (Inputs.specialization data)); reflexivity.
Qed.

Lemma advance_after_fetch r st w :
  advance (onSubmit_after_fetch r) st w =
  match r with
  | Rejected reason => (failed reason st, w, Done)
  | Fulfilled response =>
      (st, w, Waiting (Awaiting_json response (onSubmit_after_json response)))
  end.
Proof. destruct r; reflexivity. Qed.

Lemma advance_after_json response r st w :
  advance (onSubmit_after_json response r) st w =
  match r with
  | Rejected reason => (failed reason st, w, Done)
  | Fulfilled result =>
      if negb (ok response) then (failed (rejection result) st, w, Done)
      else
        match Get_path result ["data"; "token"] with
        | inl e => (failed e st, w, Done)
        | inr token =>
            match ToString token with
            | inl e => (failed e st, w, Done)
            | inr tok =>
                let w1 := perform (Stored "token" tok) w in
                match user_summary result with
                | inl e => (failed e st, w1, Done)
                | inr summary =>
                    (with_isLoading false st,
                     perform (Navigated "/doctor/dashboard")
                       (perform (Stored "user" (JSON_stringify summary)) w1),
                     Done)
                end
            end
        end
  end.
Proof.
  destruct r as [result|reason]; [|reflexivity].
  unfold onSubmit_after_json, try_catch_finally, onSubmit_settle, rejection,
    localStorage_setItem, Error, navigate.
  unfold mbind, mret, prog_bind, prog_ret.
  destruct (ok response); cbn -[Get_path user_summary].
  - destruct (Get_path result ["data"; "token"]) as [e|token];
      cbn -[Get_path user_summary]; [reflexivity|].
    destruct (ToString token) as [e|tok]; cbn -[Get_path user_summary]; [reflexivity|].
    destruct (user_summary result) as [e|summary]; reflexivity.
  - destruct (Get result "message") as [e|m]; cbn; [reflexivity|].
    destruct (ToString (or_else m (VStr "Registration failed"))); reflexivity.
Qed.

Lemma location_perform e w :
  location (perform e w) =
  match e with
  | Navigated to => Some to
  | _ => location w
  end.
Proof.
  unfold location, perform. cbn [trace].
  rewrite omap_app. destruct e; cbn.
  - now rewrite app_nil_r.
  - now rewrite app_nil_r.
  - apply last_snoc.
Qed.

Lemma handleServiceChange_frame v st :
  isLoading (handleServiceChange v st) = isLoading st
  /\ error (handleServiceChange v st) = error st
  /\ services (handleServiceChange v st) = services st.
Proof.
  unfold handleServiceChange.
  destruct (find_service (services st) v); repeat split.
Qed.

Lemma handleServiceChange_select v st :
  select_value (handleServiceChange v (with_select_value v st)) = v.
Proof.
  unfold handleServiceChange. cbn [services with_select_value].
  destruct (find_service (services st) v) as [s|] eqn:Hfind; [|reflexivity].
  cbn. exact (proj2 (find_service_Some _ _ Hfind)).
Qed.

Lemma select_values st :
  (select_options st).*1 = "" :: map Service.name (services st).
Proof.
  unfold select_options. cbn. f_equal.
  induction (services st) as [|s l IH]; cbn; [reflexivity|]. now rewrite <- IH.
Qed.

(** Running a handler changes nothing of the form. *)
Lemma advance_form (p : prog unit) st w :
  values (advance p st w).1.1 = values st
  /\ errors (advance p st w).1.1 = errors st
  /\ select_value (advance p st w).1.1 = select_value st
  /\ services (advance p st w).1.1 = services st.
Proof.
  revert st w.
  induction p as [a|e|b k IH|e k IH|key val k IH|to k IH|url init k IH|response k IH];
    intros st w; cbn; try (repeat split; reflexivity); try apply IH.
  - destruct (IH (with_isLoading b st) w) as (-> & -> & -> & ->). repeat split.
  - destruct (IH (with_error e st) w) as (-> & -> & -> & ->). repeat split.
Qed.

Lemma mounted_location c : mounted c = true <-> location (browser c) = None.
Proof. unfold mounted. destruct (location (browser c)); split; congruence. Qed.

Lemma in_flight_singleton c i x :
  consistent c -> in_flight c !! i = Some x ->
  i = 0 /\ in_flight c = [x] /\ isLoading (hooks c) = true
  /\ error (hooks c) = None
  /\ fetchingServices c = false
  /\ match x with
     | Awaiting_fetch k => k = onSubmit_after_fetch
     | Awaiting_json response k => k = onSubmit_after_json response
     end.
Proof.
  intros (Hfetch & _ & Hpark) Hi.
  assert (Hfs : fetchingServices c = false).
  { destruct (fetchingServices c); [|reflexivity].
    destruct Hfetch as (_ & Hnil); [reflexivity|]. rewrite Hnil in Hi. discriminate. }
  destruct (in_flight c) as [|y [|z l]]; [discriminate| |destruct y; contradiction].
  destruct i as [|i]; [|discriminate]. injection Hi as ->.
  destruct x; destruct Hpark as (-> & ? & ?); repeat split; assumption.
Qed.

Lemma consistent_idle c :
  consistent c -> isLoading (hooks c) = false -> in_flight c = [].
Proof.
  intros (_ & _ & Hpark) Hidle.
  destruct (in_flight c) as [|[k|response k] [|z l]]; try reflexivity; try contradiction.
  - destruct Hpark as (_ & ? & _). congruence.
  - destruct Hpark as (_ & ? & _). congruence.
Qed.

Lemma consistent_loading c :
  consistent c -> in_flight c <> [] -> isLoading (hooks c) = true.
Proof.
  intros (_ & _ & Hpark) Hne.
  destruct (in_flight c) as [|[k|response k] [|z l]]; try contradiction;
    now destruct Hpark as (_ & ? & _).
Qed.

Lemma consistent_parked c :
  consistent c -> mounted c = true -> isLoading (hooks c) = true ->
  in_flight c <> [].
Proof.
  intros (_ & _ & Hpark) Hm Hl Hnil. rewrite Hnil in Hpark.
  specialize (Hpark Hm). congruence.
Qed.

Lemma mounted_with_hooks st c : mounted (with_hooks st c) = mounted c.
Proof. reflexivity. Qed.

Lemma handleSubmit_cases (onValid : RegisterFormInputs -> prog unit) st :
  (exists errs, errs <> [] /\ handleSubmit onValid st = (with_errors errs st, Ret tt))
  \/ handleSubmit onValid st = (with_errors [] st, onValid (values st)).
Proof.
  unfold handleSubmit.
  destruct (validateFields _ _ _) as [|err errs]; [right; reflexivity|].
  left. exists (err :: errs). split; [discriminate|reflexivity].
Qed.

Lemma consistent_iff c :
  consistent c <->
  (fetchingServices c = true -> services (hooks c) = [] /\ in_flight c = [])
  /\ select_value (hooks c) ∈ "" :: map Service.name (services (hooks c))
  /\ match in_flight c with
     | [] => mounted c = true -> isLoading (hooks c) = false
     | [Awaiting_fetch k] =>
         k = onSubmit_after_fetch /\ isLoading (hooks c) = true
         /\ error (hooks c) = None
     | [Awaiting_json response k] =>
         k = onSubmit_after_json response /\ isLoading (hooks c) = true
         /\ error (hooks c) = None
     | _ :: _ :: _ => False
     end.
Proof. unfold consistent. rewrite select_values. reflexivity. Qed.

Lemma consistent_same c c' :
  services (hooks c') = services (hooks c) ->
  select_value (hooks c') = select_value (hooks c) ->
  isLoading (hooks c') = isLoading (hooks c) ->
  error (hooks c') = error (hooks c) ->
  in_flight c' = in_flight c ->
  (fetchingServices c' = true -> fetchingServices c = true) ->
  (mounted c' = true -> mounted c = true) ->
  consistent c -> consistent c'.
Proof.
  intros Hs Hv Hl He Hi Hf Hm Hc.
  apply (proj1 (consistent_iff _)) in Hc. destruct Hc as (Hfetch & Hsel & Hpark).
  apply (proj2 (consistent_iff _)). rewrite Hs, Hv, Hl, He, Hi.
  split; [auto|]. split; [assumption|].
  destruct (in_flight c) as [|x [|y l]]; auto.
Qed.

(** A config that has something parked, after the parked call has run
    on: consistent if the select and the services are as before, the
    fetch of the services is over, and what is parked now is right. *)
Lemma consistent_resumed c c' :
  consistent c -> fetchingServices c' = false ->
  services (hooks c') = services (hooks c) ->
  select_value (hooks c') = select_value (hooks c) ->
  match in_flight c' with
  | [] => mounted c' = true -> isLoading (hooks c') = false
  | [Awaiting_fetch k] =>
      k = onSubmit_after_fetch /\ isLoading (hooks c') = true
      /\ error (hooks c') = None
  | [Awaiting_json response k] =>
      k = onSubmit_after_json response /\ isLoading (hooks c') = true
      /\ error (hooks c') = None
  | _ :: _ :: _ => False
  end ->
  consistent c'.
Proof.
  intros Hc Hfs Hs Hv Hpark.
  apply (proj1 (consistent_iff _)) in Hc. destruct Hc as (_ & Hsel & _).
  apply (proj2 (consistent_iff _)). rewrite Hs, Hv, Hfs.
  split; [discriminate|]. split; assumption.
Qed.

Lemma step_consistent c ev c' :
  consistent c -> step c ev = Some c' -> consistent c'.
Proof.
  intros Hc Hstep.
  destruct ev as [data|reason|ctl v|v| | | |i r|i]; unfold step in Hstep.
  - destruct (fetchingServices c) eqn:Hfs; [|discriminate].
    injection Hstep as <-.
    apply (proj1 (consistent_iff _)) in Hc. destruct Hc as (Hfetch & Hsel & Hpark).
    destruct Hfetch as (Hs & Hnil); [exact Hfs|].
    rewrite Hs in Hsel. apply list_elem_of_singleton in Hsel.
    rewrite Hnil in Hpark.
    apply (proj2 (consistent_iff _)).
    cbn [fetchingServices in_flight hooks]. rewrite Hnil.
    split; [discriminate|].
    destruct (mounted c) eqn:Hm; cbn [services select_value with_services isLoading];
      rewrite Hsel; (split; [left|]).
    + intros _. now apply Hpark.
    + intros Hm'. unfold mounted in Hm, Hm'. cbn [browser] in Hm'. congruence.
  - destruct (fetchingServices c) eqn:Hfs; [|discriminate].
    injection Hstep as <-.
    apply (consistent_same (c:=c)); try reflexivity; [discriminate|auto|assumption].
  - destruct (mounted c) eqn:Hm; [|discriminate]. injection Hstep as <-.
    apply (consistent_same (c:=c)); try reflexivity; auto.
  - destruct (mounted c && bool_decide (v ∈ (select_options (hooks c)).*1)) eqn:Hen;
      [|discriminate].
    apply andb_true_iff in Hen as [Hm Hv]. apply bool_decide_eq_true in Hv.
    rewrite select_values in Hv.
    injection Hstep as <-.
    destruct (handleServiceChange_frame v (with_select_value v (hooks c)))
      as (Hl & He & Hs).
    apply (proj1 (consistent_iff _)) in Hc. destruct Hc as (Hfetch & Hsel & Hpark).
    apply (proj2 (consistent_iff _)).
    rewrite mounted_with_hooks.
    cbn [hooks with_hooks fetchingServices in_flight].
    rewrite Hs, Hl, He, handleServiceChange_select.
    cbn [services isLoading error with_select_value].
    split; [exact Hfetch|]. split; [exact Hv|exact Hpark].
  - destruct (mounted c) eqn:Hm; [|discriminate]. injection Hstep as <-.
    apply (consistent_same (c:=c)); try reflexivity; auto.
  - destruct (mounted c) eqn:Hm; [|discriminate].
    unfold submit_disabled in Hstep.
    destruct (isLoading (hooks c)) eqn:Hl; [discriminate|]. cbn [negb andb] in Hstep.
    pose proof (consistent_idle Hc Hl) as Hnil.
    destruct (handleSubmit_cases (onSubmit (services (hooks c))) (hooks c))
      as [(errs & _ & Hhs)|Hhs]; rewrite Hhs in Hstep; cbn [negb andb] in Hstep.
    2: { injection Hstep as <-. unfold resume. rewrite mounted_with_hooks, Hm.
      cbn [hooks browser with_hooks].
      rewrite advance_onSubmit.
      apply (proj1 (consistent_iff _)) in Hc. destruct Hc as (Hfetch & Hsel & Hpark).
      apply (proj2 (consistent_iff _)).
      destruct (find_service _ _) as [s|] eqn:Hfind;
        cbn [hooks fetchingServices in_flight fst snd services select_value
             isLoading error with_isLoading with_error with_errors failed].
      * split; [|split].
        -- intros Hfs. destruct Hfetch as (Hs & _); [exact Hfs|].
           cbn in Hfind. rewrite Hs in Hfind. discriminate.
        -- exact Hsel.
        -- rewrite Hnil. cbn. repeat split.
      * split; [exact Hfetch|]. split; [exact Hsel|].
        rewrite Hnil. reflexivity. }
    injection Hstep as <-. unfold resume. rewrite mounted_with_hooks, Hm. cbn.
    apply (consistent_same (c:=c)); try reflexivity; auto.
  - destruct (mounted c) eqn:Hm; [|discriminate]. injection Hstep as <-.
    apply (consistent_same (c:=c)); try reflexivity; auto.
  - destruct (in_flight c !! i) as [[k|response k]|] eqn:Hi; try discriminate.
    injection Hstep as <-.
    destruct (in_flight_singleton i Hc Hi) as (-> & Hone & Hl & He & Hfs & ->).
    unfold resume. rewrite advance_after_fetch, Hone. cbn [delete list_delete].
    destruct r as [response|reason];
      (eapply consistent_resumed; [exact Hc|..]); cbn; try exact Hfs;
      destruct (mounted c) eqn:Hm; try reflexivity; try (repeat split; assumption).
    intros Hm'. unfold mounted in Hm, Hm'. cbn [browser] in Hm'. congruence.
  - destruct (in_flight c !! i) as [[k|response k]|] eqn:Hi; try discriminate.
    injection Hstep as <-.
    destruct (in_flight_singleton i Hc Hi) as (-> & Hone & Hl & He & Hfs & ->).
    unfold resume. rewrite advance_after_json, Hone. cbn [delete list_delete].
    assert (Hgone : forall st w,
              (mounted c = false -> mounted {| hooks := st; browser := w;
                                               fetchingServices := fetchingServices c;
                                               in_flight := [] |} = false) ->
              services st = services (hooks c) ->
              select_value st = select_value (hooks c) ->
              (mounted c = true -> isLoading st = false) ->
              consistent {| hooks := st; browser := w;
                            fetchingServices := fetchingServices c;
                            in_flight := [] |}).
    { intros st w Hw Hs Hv Hidle.
      (eapply consistent_resumed; [exact Hc|..]); cbn; try assumption.
      intros Hm'. apply Hidle. destruct (mounted c); [reflexivity|].
      rewrite Hw in Hm' by reflexivity. discriminate. }
    assert (Hkeep : forall w, location w = location (browser c) ->
              mounted c = false -> mounted {| hooks := hooks c; browser := w;
                                              fetchingServices := fetchingServices c;
                                              in_flight := [] |} = false).
    { intros w Hw. unfold mounted. cbn [browser]. now rewrite Hw. }
    destruct (json_body response) as [result|reason].
    2: { cbn. destruct (mounted c) eqn:Hm; apply Hgone; try reflexivity; auto;
           discriminate. }
    destruct (negb (ok response)).
    { cbn. destruct (mounted c) eqn:Hm; apply Hgone; try reflexivity; auto;
        discriminate. }
    destruct (Get_path result ["data"; "token"]) as [e|token].
    { cbn. destruct (mounted c) eqn:Hm; apply Hgone; try reflexivity; auto;
        discriminate. }
    destruct (ToString token) as [e|tok].
    { cbn. destruct (mounted c) eqn:Hm; apply Hgone; try reflexivity; auto;
        discriminate. }
    cbn zeta. destruct (user_summary result) as [e|summary]; cbn;
      destruct (mounted c) eqn:Hm; apply Hgone; try reflexivity; auto;
      try discriminate.
    all: intros _; unfold mounted; cbn [browser]; now rewrite location_perform.
Qed.

Lemma consistent_initial storage : consistent (initial storage).
Proof.
  apply (proj2 (consistent_iff _)).
  split; [|split]; cbn; [intros _; split; reflexivity|left|reflexivity].
Qed.

Lemma reachable_consistent c : reachable c -> consistent c.
Proof.
  induction 1 as [storage|c ev c' _ IH Hstep].
  - apply consistent_initial.
  - exact (step_consistent ev IH Hstep).
Qed.

Lemma steps_reachable evs : forall c c',
  reachable c -> steps c evs = Some c' -> reachable c'.
Proof.
  induction evs as [|ev rest IH]; intros c c' Hc Hsteps; cbn in Hsteps.
  - injection Hsteps as <-. exact Hc.
  - destruct (step c ev) as [c1|] eqn:Hstep; [|discriminate].
    apply (IH c1); [|exact Hsteps]. exact (reachable_step ev Hc Hstep).
Qed.

Lemma phase_of_mounted c :
  mounted c = true ->
  phase_of c = if isLoading (hooks c) then Submitting else Idle.
Proof.
  unfold mounted, phase_of. destruct (location (browser c)); [discriminate|reflexivity].
Qed.

Lemma phase_of_left c :
  mounted c = false -> exists to, phase_of c = Left to.
Proof.
  unfold mounted, phase_of. destruct (location (browser c)) as [to|]; [|discriminate].
  intros _. now exists to.
Qed.

Lemma phase_of_Submitting c :
  phase_of c = Submitting <-> mounted c = true /\ isLoading (hooks c) = true.
Proof.
  unfold phase_of, mounted. destruct (location (browser c)).
  - split; [discriminate|intros [? _]; discriminate].
  - destruct (isLoading (hooks c)); split; auto; try discriminate.
    intros [_ ?]; discriminate.
Qed.

Lemma phase_of_Idle c :
  phase_of c = Idle <-> mounted c = true /\ isLoading (hooks c) = false.
Proof.
  unfold phase_of, mounted. destruct (location (browser c)).
  - split; [discriminate|intros [? _]; discriminate].
  - destruct (isLoading (hooks c)); split; auto; try discriminate.
    intros [_ ?]; discriminate.
Qed.

(** A page that has left with nothing pending takes no event. *)
Lemma step_gone c ev :
  mounted c = false -> in_flight c = [] -> fetchingServices c = false ->
  step c ev = None.
Proof.
  intros Hgone Hnil Hfs.
  destruct ev; unfold step; rewrite ?Hgone, ?Hfs, ?Hnil; reflexivity.
Qed.

(** The rest of [onSubmit] for a response that registers the doctor. *)
Lemma advance_after_json_accepted response st w :
  accepted response ->
  exists tok summary,
    advance (onSubmit_after_json response (json_body response)) st w =
      (with_isLoading false st,
       perform (Navigated "/doctor/dashboard")
         (perform (Stored "user" summary) (perform (Stored "token" tok) w)),
       Done).
Proof.
  intros (Hok & result & token & tok & user & Hbody & Htoken & Htok & Hu & Hne & Hnn).
  assert (Hex : exists summary, user_summary result = inr summary).
  { apply user_summary_defined. eauto. }
  destruct Hex as [summary Hsum].
  rewrite advance_after_json, Hbody, Hok, Htoken, Htok. cbn [negb]. cbn zeta.
  rewrite Hsum. eexists _, _. reflexivity.
Qed.

(** ... and for one that does not. *)
Lemma advance_after_json_refused response st w :
  ~ accepted response ->
  exists err w',
    advance (onSubmit_after_json response (json_body response)) st w =
      (failed err st, w', Done)
    /\ (w' = w \/ exists tok, w' = perform (Stored "token" tok) w).
Proof.
  intros Hno. rewrite advance_after_json.
  destruct (json_body response) as [result|reason] eqn:Hbody; [|eauto].
  destruct (ok response) eqn:Hok; cbn [negb]; [|eauto].
  destruct (Get_path result ["data"; "token"]) as [e|token] eqn:Htoken; [eauto|].
  destruct (ToString token) as [e|tok] eqn:Htok; [eauto|].
  cbn zeta. destruct (user_summary result) as [e|summary] eqn:Hsum; [eauto 6|].
  exfalso. apply Hno. split; [exact Hok|].
  assert (Hex : exists summary, user_summary result = inr summary) by eauto.
  apply user_summary_defined in Hex as (user & Hu & Hne & Hnn).
  exists result, token, tok, user. auto 10.
Qed.

(** C7.  In every configuration the page can reach: at most one
    [onSubmit] call is in flight; the page on screen is submitting
    exactly when one is; and while one is, the submit button is
    disabled and no submission can start.  A submission starts from
    idle: refused by the field rules it changes nothing on the browser;
    with an unknown specialization it ends idle with the validation
    message; otherwise the page is submitting, the error cleared and
    the one request sent.  When the fetch is rejected the submitting
    page is idle again with the rejection's message; when it is
    fulfilled the page waits for the body.  When the body is read, a
    response that registers the doctor takes the browser to the
    dashboard, with token and user stored, after which no event is
    possible; any other response leaves the route as it was and
    returns the submitting page to idle with a non-empty error message.
    No other event touches [isLoading] or what is in flight. *)
Theorem submission_state_machine (c : Config) :
  reachable c ->
  length (in_flight c) <= 1
  /\ (phase_of c = Submitting <-> mounted c = true /\ in_flight c <> [])
  /\ (in_flight c <> [] ->
      submit_disabled (hooks c) = true /\ step c Submit = None)
  /\ (forall c', step c Submit = Some c' ->
      phase_of c = Idle
      /\ match errors (hooks c'),
               find_service (services (hooks c))
                 (Inputs.specialization (values (hooks c))) with
         | _ :: _, _ =>
             phase_of c' = Idle /\ browser c' = browser c
             /\ error (hooks c') = error (hooks c)
         | [], None =>
             phase_of c' = Idle /\ browser c' = browser c
             /\ error (hooks c') = Some "Please select a valid specialization"
         | [], Some _ =>
             phase_of c' = Submitting /\ error (hooks c') = None
             /\ length (in_flight c') = 1
             /\ browser c' =
                  perform (Fetched register_url (register_request (values (hooks c))))
                    (browser c)
         end)
  /\ (forall i r c', step c (Fetch_settles i r) = Some c' ->
      browser c' = browser c
      /\ match r with
         | Rejected reason =>
             in_flight c' = []
             /\ (phase_of c = Submitting ->
                 phase_of c' = Idle
                 /\ error (hooks c') =
                      Some (or_else_string (message reason)
                              "Registration failed. Please try again."))
         | Fulfilled response =>
             hooks c' = hooks c
             /\ exists k, in_flight c' = [Awaiting_json response k]
         end)
  /\ (forall i response k c',
      in_flight c !! i = Some (Awaiting_json response k) ->
      step c (Body_read i) = Some c' ->
      in_flight c' = []
      /\ (accepted response ->
          phase_of c' = Left "/doctor/dashboard"
          /\ is_Some (localStorage (browser c') !! "token")
          /\ is_Some (localStorage (browser c') !! "user")
          /\ forall ev, step c' ev = None)
      /\ (~ accepted response ->
          location (browser c') = location (browser c)
          /\ (phase_of c = Submitting ->
              phase_of c' = Idle
              /\ exists msg, error (hooks c') = Some msg /\ msg <> "")))
  /\ (forall ev c', step c ev = Some c' ->
      match ev with
      | Submit | Fetch_settles _ _ | Body_read _ => True
      | _ => isLoading (hooks c') = isLoading (hooks c)
             /\ in_flight c' = in_flight c
      end).
Proof.
  intros Hreach. pose proof (reachable_consistent Hreach) as Hc.
  split; [|split; [|split; [|split; [|split; [|split]]]]].
  - destruct Hc as (_ & _ & Hpark).
    destruct (in_flight c) as [|x [|y l]]; cbn; [lia|lia|destruct x; contradiction].
  - rewrite phase_of_Submitting. split.
    + intros [Hm Hl]. split; [exact Hm|]. exact (consistent_parked Hc Hm Hl).
    + intros [Hm Hne]. split; [exact Hm|]. exact (consistent_loading Hc Hne).
  - intros Hne. pose proof (consistent_loading Hc Hne) as Hl.
    unfold step, submit_disabled. rewrite Hl.
    split; [reflexivity|]. now rewrite andb_false_r.
  - intros c' Hstep. unfold step in Hstep.
    destruct (mounted c) eqn:Hm; [|discriminate]. unfold submit_disabled in Hstep.
    destruct (isLoading (hooks c)) eqn:Hl; [discriminate|]. cbn [negb andb] in Hstep.
    split; [apply phase_of_Idle; auto|].
    pose proof (consistent_idle Hc Hl) as Hnil.
    destruct (handleSubmit_cases (onSubmit (services (hooks c))) (hooks c))
      as [(errs & Hne & Hhs)|Hhs]; rewrite Hhs in Hstep; injection Hstep as <-;
      unfold resume; rewrite mounted_with_hooks, Hm.
    + cbn. destruct errs as [|err errs]; [contradiction|].
      split; [|split; reflexivity]. apply phase_of_Idle. auto.
    + cbn [hooks browser with_hooks]. rewrite advance_onSubmit.
      cbn [values with_errors].
      destruct (find_service _ _) as [s|]; cbn.
      * split; [|split; [reflexivity|]].
        -- apply phase_of_Submitting. split; [|reflexivity].
           apply mounted_location. cbn. rewrite location_perform.
           now apply mounted_location.
        -- rewrite Hnil. split; reflexivity.
      * split; [|split; reflexivity]. apply phase_of_Idle. auto.
  - intros i r c' Hstep. unfold step in Hstep.
    destruct (in_flight c !! i) as [[k|response k]|] eqn:Hi; try discriminate.
    injection Hstep as <-.
    destruct (in_flight_singleton i Hc Hi) as (-> & Hone & Hl & He & Hfs & ->).
    unfold resume. rewrite advance_after_fetch, Hone. cbn [delete list_delete].
    destruct r as [response|reason]; cbn.
    + split; [reflexivity|]. split; [destruct (mounted c); reflexivity|].
      eexists. reflexivity.
    + split; [reflexivity|]. split; [reflexivity|].
      intros Hph. apply phase_of_Submitting in Hph as [Hm _]. rewrite Hm.
      split; [|reflexivity]. apply phase_of_Idle. split; [exact Hm|reflexivity].
  - intros i response k c' Hi Hstep. unfold step in Hstep. rewrite Hi in Hstep.
    injection Hstep as <-.
    destruct (in_flight_singleton i Hc Hi) as (-> & Hone & Hl & He & Hfs & ->).
    unfold resume. rewrite Hone. cbn [delete list_delete].
    split; [|split].
    + rewrite advance_after_json.
      destruct (json_body response) as [result|reason]; [|reflexivity].
      destruct (negb (ok response)); [reflexivity|].
      destruct (Get_path result ["data"; "token"]) as [e|token]; [reflexivity|].
      destruct (ToString token) as [e|tok]; [reflexivity|].
      cbn zeta. destruct (user_summary result); reflexivity.
    + intros Hacc.
      destruct (advance_after_json_accepted (hooks c) (browser c) Hacc)
        as (tok & summary & ->).
      cbn [hooks browser in_flight fetchingServices].
      split; [unfold phase_of; cbn [browser]; now rewrite location_perform|].
      split; [cbn; rewrite lookup_insert_ne by discriminate;
              rewrite lookup_insert_eq; now eexists|].
      split; [cbn; rewrite lookup_insert_eq; now eexists|].
      intros ev. apply step_gone; [|reflexivity|exact Hfs].
      unfold mounted. cbn [browser]. now rewrite location_perform.
    + intros Hno.
      destruct (advance_after_json_refused (hooks c) (browser c) Hno)
        as (err & w' & -> & Hw').
      cbn [hooks browser in_flight].
      assert (Hloc : location w' = location (browser c)).
      { destruct Hw' as [->|(tok & ->)]; [reflexivity|]. apply location_perform. }
      split; [exact Hloc|].
      intros Hph. apply phase_of_Submitting in Hph as [Hm _]. rewrite Hm. split.
      * apply phase_of_Idle. split; [|reflexivity].
        unfold mounted in *. cbn [browser]. now rewrite Hloc.
      * eexists. split; [reflexivity|]. apply or_else_string_nonempty. discriminate.
  - intros ev c' Hstep.
    destruct ev as [data|reason|ctl v|v| | | |i r|i]; try exact I;
      unfold step in Hstep.
    + destruct (fetchingServices c); [|discriminate]. injection Hstep as <-.
      cbn. destruct (mounted c); split; reflexivity.
    + destruct (fetchingServices c); [|discriminate]. injection Hstep as <-.
      split; reflexivity.
    + destruct (mounted c); [|discriminate]. injection Hstep as <-.
      split; reflexivity.
    + destruct (mounted c && _); [|discriminate]. injection Hstep as <-.
      split; [|reflexivity]. cbn [hooks with_hooks].
      exact (proj1 (handleServiceChange_frame v _)).
    + destruct (mounted c); [|discriminate]. injection Hstep as <-.
      split; reflexivity.
    + destruct (mounted c); [|discriminate]. injection Hstep as <-.
      split; reflexivity.
Qed.

(** ** The displayed service details *)

Lemma advance_frame (p : prog unit) st w :
  services (advance p st w).1.1 = services st
  /\ selectedServiceDetails (advance p st w).1.1 = selectedServiceDetails st.
Proof.
  revert st w.
  induction p as [a|e|b k IH|e k IH|key val k IH|to k IH|url init k IH|response k IH];
    intros st w; cbn; try (split; reflexivity); try apply IH.
  - destruct (IH (with_isLoading b st) w) as [-> ->]. split; reflexivity.
  - destruct (IH (with_error e st) w) as [-> ->]. split; reflexivity.
Qed.

Lemma resume_frame p others c :
  services (hooks (resume p others c)) = services (hooks c)
  /\ selectedServiceDetails (hooks (resume p others c))
     = selectedServiceDetails (hooks c).
Proof.
  unfold resume. pose proof (advance_frame p (hooks c) (browser c)) as H.
  destruct (advance p (hooks c) (browser c)) as [[st w] s]. cbn [hooks].
  destruct (mounted c); [exact H|split; reflexivity].
Qed.

(** An event either leaves the displayed details as they were, the
    service list changing only when it arrives, or sets them to the
    details of a service of the list. *)
Lemma step_details c ev c' :
  step c ev = Some c' ->
  (selectedServiceDetails (hooks c') = selectedServiceDetails (hooks c)
   /\ (services (hooks c') = services (hooks c) \/ fetchingServices c = true))
  \/ (exists s, s ∈ services (hooks c')
        /\ selectedServiceDetails (hooks c') = Some (details_of s)).
Proof.
  intros Hstep.
  destruct ev as [data|reason|ctl v|v| | | |i r|i]; unfold step in Hstep.
  - destruct (fetchingServices c); [|discriminate]. injection Hstep as <-.
    left. cbn. destruct (mounted c); auto.
  - destruct (fetchingServices c); [|discriminate]. injection Hstep as <-.
    left. auto.
  - destruct (mounted c); [|discriminate]. injection Hstep as <-. left. auto.
  - destruct (mounted c && _); [|discriminate]. injection Hstep as <-.
    cbn [hooks with_hooks]. unfold handleServiceChange. cbn [services with_select_value].
    destruct (find_service (services (hooks c)) v) as [s|] eqn:Hfind; [|left; auto].
    right. exists s. split; [|reflexivity].
    cbn. exact (proj1 (find_service_Some _ _ Hfind)).
  - destruct (mounted c); [|discriminate]. injection Hstep as <-. left. auto.
  - destruct (mounted c && negb (submit_disabled (hooks c))); [|discriminate].
    destruct (handleSubmit _ (hooks c)) as [st p] eqn:Hhs. injection Hstep as <-.
    destruct (resume_frame p (in_flight c) (with_hooks st c)) as [-> ->].
    left. cbn. unfold handleSubmit in Hhs. injection Hhs as <- _. auto.
  - destruct (mounted c); [|discriminate]. injection Hstep as <-. left. auto.
  - destruct (in_flight c !! i) as [[k|response k]|]; try discriminate.
    injection Hstep as <-.
    destruct (resume_frame (k r) (delete i (in_flight c)) c) as [-> ->]. left. auto.
  - destruct (in_flight c !! i) as [[k|response k]|]; try discriminate.
    injection Hstep as <-.
    destruct (resume_frame (k (json_body response)) (delete i (in_flight c)) c)
      as [-> ->].
    left. auto.
Qed.

Lemma reachable_details c :
  reachable c ->
  selectedServiceDetails (hooks c) = None
  \/ exists s, s ∈ services (hooks c)
       /\ selectedServiceDetails (hooks c) = Some (details_of s).
Proof.
  induction 1 as [storage|c ev c' Hreach IH Hstep]; [left; reflexivity|].
  destruct (step_details _ _ Hstep) as [[Hd [Hs|Hfs]]|Hset]; [| |right; exact Hset].
  - rewrite Hd, Hs. exact IH.
  - left. rewrite Hd.
    destruct (reachable_consistent Hreach) as [Hfetch _].
    destruct (Hfetch Hfs) as (Hnil & _). rewrite Hnil in IH.
    destruct IH as [IH|(s & Hin & _)]; [exact IH|inversion Hin].
Qed.

(** C8.  The displayed details start as null; in every configuration
    the page can reach they are null or the duration and price of a
    service of the fetched list; and no event takes them from non-null
    back to null. *)
Theorem selectedServiceDetails_invariant (c : Config) :
  reachable c ->
  (forall storage, selectedServiceDetails (hooks (initial storage)) = None)
  /\ (selectedServiceDetails (hooks c) = None
      \/ exists s, s ∈ services (hooks c)
           /\ selectedServiceDetails (hooks c) =
                Some {| Details.duration := Service.duration s;
                        Details.price := Service.price s |})
  /\ (forall ev c', step c ev = Some c' ->
        selectedServiceDetails (hooks c) <> None ->
        selectedServiceDetails (hooks c') <> None).
Proof.
  intros Hreach. split; [reflexivity|]. split; [exact (reachable_details Hreach)|].
  intros ev c' Hstep Hsome.
  destruct (step_details _ _ Hstep) as [[Hd _]|(s & _ & Hset)].
  - rewrite Hd. exact Hsome.
  - rewrite Hset. discriminate.
Qed.
End Properties.

(** * The properties on the sample page *)

#[local] Existing Instance Sample.engine.

Lemma submitted_reachable : reachable Sample.submitted.
Proof.
  apply (steps_reachable Sample.visit (reachable_initial ∅)).
  vm_compute. reflexivity.
Qed.

Lemma onSubmit_unknown_specialization_sample :
  run (fun _ _ => Fulfilled Sample.created)
      (onSubmit [Sample.cardiology; Sample.dermatology] Sample.neurology)
      Sample.page Sample.blank_browser =
    (with_isLoading false
       (with_error (Some "Please select a valid specialization") Sample.page),
     Sample.blank_browser, inr tt)
  /\ advance (onSubmit [Sample.cardiology; Sample.dermatology] Sample.neurology)
       Sample.page Sample.blank_browser =
    (with_isLoading false
       (with_error (Some "Please select a valid specialization") Sample.page),
     Sample.blank_browser, Done).
Proof.
  apply (onSubmit_unknown_specialization (fun _ _ => Fulfilled Sample.created)).
  intros s Hs.
  apply elem_of_cons in Hs as [->|Hs]; [discriminate|].
  apply elem_of_cons in Hs as [->|Hs]; [discriminate|].
  inversion Hs.
Defined.

Lemma onSubmit_stores_token_sample :
  exists st' w',
    run (fun _ _ => Fulfilled Sample.created)
        (onSubmit [Sample.cardiology] Sample.dr_doe)
        Sample.page Sample.blank_browser = (st', w', inr tt)
    /\ localStorage w' !! "token" = Some "tok-123".
Proof.
  apply (onSubmit_stores_token (fun _ _ => Fulfilled Sample.created)
           [Sample.cardiology] Sample.dr_doe Sample.page Sample.blank_browser
           (response := Sample.created)
           (result := VObj
             [ ("data", VObj
                 [ ("token", VStr "tok-123");
                   ("user", VObj [ ("id", VNum 7%Z); ("name", VStr "Dr. John Doe");
                                   ("email", VStr "doctor@example.com");
                                   ("role", VStr "admin");
                                   ("specialization", VStr "Cardiology") ]) ]) ])).
  - eexists. reflexivity.
  - reflexivity.
  - reflexivity.
  - reflexivity.
  - reflexivity.
Defined.

(** The service list of the specification's example: selecting
    "Cardiology" and submitting sends a body with that specialization. *)
Lemma onSubmit_request_body_sample :
  exists st' w' later,
    run (fun _ _ => Fulfilled Sample.created)
        (onSubmit [Sample.cardiology] Sample.dr_doe)
        Sample.page Sample.blank_browser = (st', w', inr tt)
    /\ trace w' =
         [] ++
         Fetched "http://localhost:5000/api/auth/doctor/register"
           {| method := "POST";
              headers := [("Content-Type", "application/json")];
              body := JSON_stringify (VObj
                [ ("name", VStr "Dr. John Doe");
                  ("email", VStr "doctor@example.com");
                  ("password", VStr "secret1");
                  ("specialization", VStr "Cardiology");
                  ("phoneNumber", VStr "+1 (555) 000-0000");
                  ("address", VStr "1 Main St");
                  ("role", VStr "doctor") ]) |} :: later
    /\ filter is_fetch later = [].
Proof.
  apply (onSubmit_request_body (fun _ _ => Fulfilled Sample.created)
           [Sample.cardiology] Sample.dr_doe Sample.page Sample.blank_browser).
  eexists. reflexivity.
Defined.


(** A response that is not [ok] with the body [null]: reading its
    [message] throws, and the text of the [TypeError] is displayed. *)
Example onSubmit_not_ok_null_body :
  error (run (fun _ _ => Fulfilled Sample.null_body)
           (onSubmit [Sample.cardiology] Sample.dr_doe)
           Sample.page Sample.blank_browser).1.1
  = Some "Cannot read properties of null (reading 'message')".
Proof. reflexivity. Qed.

(** Selecting "Cardiology" on the page with two services of that name
    shows the first one's details. *)
Lemma handleServiceChange_first_match_sample :
  Inputs.specialization (values (handleServiceChange "Cardiology" Scenario.twins))
    = "Cardiology"
  /\ selectedServiceDetails (handleServiceChange "Cardiology" Scenario.twins) =
       Some {| Details.duration := 30%Z; Details.price := 100%Z |}
  /\ handleServiceChange "Cardiology" Scenario.twins =
       with_selectedServiceDetails
         (Some {| Details.duration := 30%Z; Details.price := 100%Z |})
         (setValue_specialization "Cardiology" Scenario.twins).
Proof.
  apply (proj1 (handleServiceChange_first_match "Cardiology" Scenario.twins)
           [] Sample.cardiology [Scenario.cardiology_long]).
  - reflexivity.
  - reflexivity.
  - intros x Hx. inversion Hx.
Defined.

(** C4 as worded fails on a list that repeats a name: the second
    Cardiology is a service of the list with the selected name, yet the
    details displayed are not its duration and price. *)
Lemma handleServiceChange_repeated_name :
  Scenario.cardiology_long ∈ services Scenario.twins
  /\ Service.name Scenario.cardiology_long = "Cardiology"
  /\ selectedServiceDetails (handleServiceChange "Cardiology" Scenario.twins)
     = Some {| Details.duration := 30%Z; Details.price := 100%Z |}
  /\ selectedServiceDetails (handleServiceChange "Cardiology" Scenario.twins)
     <> Some {| Details.duration := Service.duration Scenario.cardiology_long;
                Details.price := Service.price Scenario.cardiology_long |}.
Proof.
  split; [right; left|]. split; [reflexivity|]. split; [reflexivity|].
  vm_compute. discriminate.
Qed.


Lemma handleSubmit_rejects_sample :
  exists errs,
    errs <> []
    /\ handleSubmit (onSubmit [Sample.cardiology]) Sample.mistyped
       = (with_errors errs Sample.mistyped, Ret tt).
Proof.
  apply (handleSubmit_rejects (onSubmit [Sample.cardiology]) Sample.mistyped).
  right. left. discriminate.
Defined.

Lemma answered_reachable : reachable Sample.answered.
Proof.
  apply (steps_reachable (Sample.visit ++ [Fetch_settles 0 (Fulfilled Sample.created)])
           (reachable_initial ∅)).
  vm_compute. reflexivity.
Qed.

Lemma accepted_created : accepted Sample.created.
Proof.
  split; [reflexivity|]. eexists _, _, _, _.
  split; [reflexivity|]. split; [reflexivity|]. split; [reflexivity|].
  split; [reflexivity|]. split; discriminate.
Qed.

(** The sample visit, once the server has answered [201] and the body
    is read, ends on the dashboard with nothing left to happen. *)
Lemma submission_state_machine_sample :
  exists landed,
    step Sample.answered (Body_read 0) = Some landed
    /\ phase_of Sample.answered = Submitting
    /\ in_flight landed = []
    /\ phase_of landed = Left "/doctor/dashboard"
    /\ is_Some (localStorage (browser landed) !! "token")
    /\ is_Some (localStorage (browser landed) !! "user")
    /\ forall ev, step landed ev = None.
Proof.
  destruct (submission_state_machine answered_reachable)
    as (_ & _ & _ & _ & _ & Hbody & _).
  destruct (step Sample.answered (Body_read 0)) as [landed|] eqn:Hstep;
    [|vm_compute in Hstep; discriminate].
  exists landed. split; [reflexivity|]. split; [reflexivity|].
  destruct (Hbody 0 Sample.created (onSubmit_after_json Sample.created) landed)
    as (Hnone & Hyes & _); [reflexivity|exact Hstep|].
  split; [exact Hnone|]. exact (Hyes accepted_created).
Defined.

Lemma selectedServiceDetails_invariant_sample :
  selectedServiceDetails (hooks Sample.submitted)
    = Some {| Details.duration := 30%Z; Details.price := 100%Z |}
  /\ (forall storage, selectedServiceDetails (hooks (initial storage)) = None)
  /\ (selectedServiceDetails (hooks Sample.submitted) = None
      \/ exists s, s ∈ services (hooks Sample.submitted)
           /\ selectedServiceDetails (hooks Sample.submitted) =
                Some {| Details.duration := Service.duration s;
                        Details.price := Service.price s |})
  /\ (forall ev c', step Sample.submitted ev = Some c' ->
        selectedServiceDetails (hooks Sample.submitted) <> None ->
        selectedServiceDetails (hooks c') <> None).
Proof.
  split; [reflexivity|].
  apply (selectedServiceDetails_invariant submitted_reachable).
Defined.

(** The response's user says [role: "admin"]; what is stored says
    "doctor". *)
Lemma onSubmit_stores_user_sample :
  exists st' w' id name email specialization,
    run (fun _ _ => Fulfilled Sample.created)
        (onSubmit [Sample.cardiology] Sample.dr_doe)
        Sample.page Sample.blank_browser = (st', w', inr tt)
    /\ Get (VObj [ ("id", VNum 7%Z); ("name", VStr "Dr. John Doe");
                   ("email", VStr "doctor@example.com");
                   ("role", VStr "admin");
                   ("specialization", VStr "Cardiology") ]) "id" = inr id
    /\ Get (VObj [ ("id", VNum 7%Z); ("name", VStr "Dr. John Doe");
                   ("email", VStr "doctor@example.com");
                   ("role", VStr "admin");
                   ("specialization", VStr "Cardiology") ]) "name" = inr name
    /\ Get (VObj [ ("id", VNum 7%Z); ("name", VStr "Dr. John Doe");
                   ("email", VStr "doctor@example.com");
                   ("role", VStr "admin");
                   ("specialization", VStr "Cardiology") ]) "email" = inr email
    /\ Get (VObj [ ("id", VNum 7%Z); ("name", VStr "Dr. John Doe");
                   ("email", VStr "doctor@example.com");
                   ("role", VStr "admin");
                   ("specialization", VStr "Cardiology") ]) "specialization"
       = inr specialization
    /\ localStorage w' !! "user" =
         Some (JSON_stringify (VObj
           [ ("id", id);
             ("name", name);
             ("email", email);
             ("role", VStr "doctor");
             ("specialization", specialization) ])).
Proof.
  apply (onSubmit_stores_user (fun _ _ => Fulfilled Sample.created)
           [Sample.cardiology] Sample.dr_doe Sample.page Sample.blank_browser
           (response := Sample.created)
           (result := VObj
             [ ("data", VObj
                 [ ("token", VStr "tok-123");
                   ("user", VObj [ ("id", VNum 7%Z); ("name", VStr "Dr. John Doe");
                                   ("email", VStr "doctor@example.com");
                                   ("role", VStr "admin");
                                   ("specialization", VStr "Cardiology") ]) ]) ])
           (token := VStr "tok-123") (tok := "tok-123")).
  - eexists. reflexivity.
  - reflexivity.
  - reflexivity.
  - reflexivity.
  - reflexivity.
  - reflexivity.
  - reflexivity.
  - discriminate.
  - discriminate.
Defined.

(** ** Runs of the sample page *)

Example email_pattern_accepts :
  test email_pattern "doctor@example.com" = true
  /\ test email_pattern "a.b+c@mail.example.ORG" = true.
Proof. split; reflexivity. Qed.

Example email_pattern_refuses :
  test email_pattern "doctor@example" = false
  /\ test email_pattern "doctor@@example.com" = false
  /\ test email_pattern "doctor@example.c" = false
  /\ test email_pattern "doctor example@x.com" = false.
Proof. repeat split; reflexivity. Qed.

Example select_cardiology :
  selectedServiceDetails (handleServiceChange "Cardiology" Sample.page)
    = Some {| Details.duration := 30%Z; Details.price := 100%Z |}
  /\ handleServiceChange "" (handleServiceChange "Cardiology" Sample.page)
     = handleServiceChange "Cardiology" Sample.page.
Proof. split; reflexivity. Qed.

Example register_and_land :
  (run (fun _ _ => Fulfilled Sample.created)
       (onSubmit [Sample.cardiology] Sample.dr_doe)
       Sample.page Sample.blank_browser).1.2
  = {| localStorage :=
         <["user" := JSON_stringify (VObj
             [ ("id", VNum 7%Z); ("name", VStr "Dr. John Doe");
               ("email", VStr "doctor@example.com"); ("role", VStr "doctor");
               ("specialization", VStr "Cardiology") ])]>
           (<["token" := "tok-123"]> ∅);
       trace :=
         [ Fetched register_url (register_request Sample.dr_doe);
           Stored "token" "tok-123";
           Stored "user" (JSON_stringify (VObj
             [ ("id", VNum 7%Z); ("name", VStr "Dr. John Doe");
               ("email", VStr "doctor@example.com"); ("role", VStr "doctor");
               ("specialization", VStr "Cardiology") ]));
           Navigated "/doctor/dashboard" ] |}.
Proof. reflexivity. Qed.

Example blank_form_errors :
  validateFields (registered "")
    (Inputs.mk "" "" "" "" "" "" "") (Inputs.mk "" "" "" "" "" "" "")
  = [ ("name", "Name is required");
      ("email", "Email is required");
      ("specialization", "Service selection is required");
      ("phoneNumber", "Phone number is required");
      ("address", "Address is required");
      ("password", "Password is required");
      ("confirmPassword", "Please confirm your password") ].
Proof. reflexivity. Qed.

Example short_password_errors :
  validateFields (registered "abc")
    (write_control ConfirmPassword "abd" (write_control Password "abc" Sample.dr_doe))
    (write_control ConfirmPassword "abd" (write_control Password "abc" Sample.dr_doe))
  = [ ("password", "Password must be at least 6 characters");
      ("confirmPassword", "The passwords do not match") ].
Proof. reflexivity. Qed.

(** The select put back on its placeholder after a service was chosen:
    the form still holds "Cardiology", yet the field is required. *)
Example placeholder_reselected :
  Inputs.specialization (values (hooks Scenario.reselected)) = "Cardiology"
  /\ select_value (hooks Scenario.reselected) = ""
  /\ exists c',
       step Scenario.reselected Submit = Some c'
       /\ errors (hooks c') = [("specialization", "Service selection is required")]
       /\ browser c' = browser Scenario.reselected.
Proof.
  split; [reflexivity|]. split; [reflexivity|].
  eexists. split; [vm_compute; reflexivity|]. split; reflexivity.
Qed.

(** The visit the server refuses ends idle, with the server's message
    on display and nothing stored. *)
Example refused_visit :
  phase_of Scenario.refused = Idle
  /\ error (hooks Scenario.refused) = Some "Email exists"
  /\ in_flight Scenario.refused = []
  /\ localStorage (browser Scenario.refused) = ∅.
Proof. repeat split; reflexivity. Qed.

(** A parked [onSubmit] outlives the page: after the sign-in link was
    followed, the answer still stores the session and moves the browser
    on to the dashboard. *)
Example left_mid_submission :
  omap (fun e => match e with Navigated to => Some to | _ => None end)
    (trace (browser Scenario.walked_away))
  = ["/doctor/login"; "/doctor/dashboard"]
  /\ localStorage (browser Scenario.walked_away) !! "token" = Some "tok-123"
  /\ in_flight Scenario.walked_away = [].
Proof. repeat split; reflexivity. Qed.

Section Regex.

Lemma matches_Cat_iff r1 r2 s :
  matches (Cat r1 r2) s <->
  exists s1 s2, s = s1 ++ s2 /\ matches r1 s1 /\ matches r2 s2.
Proof.
  split.
  - inversion 1; subst. eexists _, _. repeat split; eassumption.
  - intros (s1 & s2 & -> & H1 & H2). now constructor.
Qed.

Lemma matches_Alt_iff r1 r2 s :
  matches (Alt r1 r2) s <-> matches r1 s \/ matches r2 s.
Proof.
  split.
  - inversion 1; subst; auto.
  - intros [H|H]; [now apply matches_Alt_l|now apply matches_Alt_r].
Qed.

Lemma matches_Class_iff p s :
  matches (Class p) s <-> exists c, s = [c] /\ p c = true.
Proof.
  split.
  - inversion 1; subst. eexists. split; [reflexivity|assumption].
  - intros (c & -> & Hc). now constructor.
Qed.

Lemma nullable_matches r : nullable r = true <-> matches r [].
Proof.
  induction r as [| |p|r1 IH1 r2 IH2|r1 IH1 r2 IH2|r IH]; cbn.
  - split; [discriminate|inversion 1].
  - split; [constructor|reflexivity].
  - rewrite matches_Class_iff. split; [discriminate|]. intros (c & Heq & _). discriminate.
  - rewrite andb_true_iff, IH1, IH2, matches_Cat_iff. split.
    + intros [H1 H2]. exists [], []. auto.
    + intros (s1 & s2 & Heq & H1 & H2). symmetry in Heq.
      apply app_eq_nil in Heq as [-> ->]. split; assumption.
  - rewrite orb_true_iff, IH1, IH2, matches_Alt_iff. reflexivity.
  - split; [constructor|reflexivity].
Qed.

Lemma matches_Star_cons r c s :
  matches (Star r) (c :: s) ->
  exists s1 s2, s = s1 ++ s2 /\ matches r (c :: s1) /\ matches (Star r) s2.
Proof.
  intros H. remember (Star r) as r' eqn:Hr. remember (c :: s) as l eqn:Hl.
  revert s Hr Hl.
  induction H as [| | | | | |r0 s1 s2 H1 _ H2 IH2]; intros s0 Hr Hl; try discriminate.
  injection Hr as ->. destruct s1 as [|c1 s1]; cbn in Hl.
  - apply IH2; [reflexivity|exact Hl].
  - injection Hl as -> <-. exists s1, s2. repeat split; assumption.
Qed.

Lemma matches_cons_Cat r1 r2 c s :
  matches (Cat r1 r2) (c :: s) <->
  (exists s1 s2, s = s1 ++ s2 /\ matches r1 (c :: s1) /\ matches r2 s2)
  \/ (matches r1 [] /\ matches r2 (c :: s)).
Proof.
  rewrite matches_Cat_iff. split.
  - intros (s1 & s2 & Heq & H1 & H2). destruct s1 as [|c1 s1]; cbn in Heq.
    + right. subst. split; assumption.
    + injection Heq as -> ->. left. exists s1, s2. repeat split; assumption.
  - intros [(s1 & s2 & -> & H1 & H2)|[H1 H2]].
    + exists (c :: s1), s2. repeat split; assumption.
    + exists [], (c :: s). repeat split; assumption.
Qed.

Lemma derivative_matches c r : forall s,
  matches (derivative c r) s <-> matches r (c :: s).
Proof.
  induction r as [| |p|r1 IH1 r2 IH2|r1 IH1 r2 IH2|r IH]; intros s; cbn.
  - split; inversion 1.
  - split; inversion 1.
  - rewrite matches_Class_iff. destruct (p c) eqn:Hp; split.
    + inversion 1; subst. exists c. auto.
    + intros (c' & Heq & _). injection Heq as <- ->. constructor.
    + inversion 1.
    + intros (c' & Heq & Hc'). injection Heq as <- ->. congruence.
  - assert (Hcat : matches (Cat (derivative c r1) r2) s <->
                   exists s1 s2, s = s1 ++ s2 /\ matches r1 (c :: s1) /\ matches r2 s2).
    { rewrite matches_Cat_iff. split.
      - intros (s1 & s2 & -> & H1 & H2). exists s1, s2.
        split; [reflexivity|]. split; [now apply IH1|assumption].
      - intros (s1 & s2 & -> & H1 & H2). exists s1, s2.
        split; [reflexivity|]. split; [now apply IH1|assumption]. }
    rewrite matches_cons_Cat. destruct (nullable r1) eqn:Hn.
    + rewrite matches_Alt_iff, Hcat, IH2. split.
      * intros [H|H]; [left; exact H|right].
        split; [now apply nullable_matches|exact H].
      * intros [H|[_ H]]; auto.
    + rewrite Hcat. split; [auto|].
      intros [H|[H _]]; [exact H|].
      apply nullable_matches in H. congruence.
  - rewrite !matches_Alt_iff, IH1, IH2. reflexivity.
  - rewrite matches_Cat_iff. split.
    + intros (s1 & s2 & -> & H1 & H2).
      apply IH in H1. exact (matches_Star_app H1 H2).
    + intros H. apply matches_Star_cons in H as (s1 & s2 & -> & H1 & H2).
      exists s1, s2. split; [reflexivity|]. split; [now apply IH|assumption].
Qed.

Lemma test_matches r s : test r s = true <-> matches r (list_ascii_of_string s).
Proof.
  revert r. induction s as [|c s IH]; intros r; cbn.
  - apply nullable_matches.
  - rewrite IH. apply derivative_matches.
Qed.

Lemma matches_Star_Class p s :
  matches (Star (Class p)) s <-> forallb p s = true.
Proof.
  split.
  - intros H. remember (Star (Class p)) as r eqn:Hr.
    induction H as [| | | | | |r0 s1 s2 H1 _ H2 IH2]; try discriminate; [reflexivity|].
    injection Hr as ->. inversion H1; subst. cbn.
    rewrite IH2 by reflexivity. now rewrite andb_true_r.
  - induction s as [|c s IH]; cbn; [constructor|].
    rewrite andb_true_iff. intros [Hc Hs].
    apply (matches_Star_app (s1 := [c])); [now constructor|now apply IH].
Qed.

Lemma matches_Plus_Class p s :
  matches (Plus (Class p)) s <-> s <> [] /\ forallb p s = true.
Proof.
  unfold Plus. rewrite matches_Cat_iff. split.
  - intros (s1 & s2 & -> & H1 & H2).
    apply matches_Class_iff in H1 as (c & -> & Hc).
    apply matches_Star_Class in H2. cbn.
    split; [discriminate|]. now rewrite Hc, H2.
  - intros [Hne Hall]. destruct s as [|c s]; [contradiction|].
    cbn in Hall. apply andb_true_iff in Hall as [Hc Hs].
    exists [c], s. split; [reflexivity|].
    split; [now constructor|now apply matches_Star_Class].
Qed.

Lemma matches_Class_Cat p r s :
  matches (Cat (Class p) r) s <-> exists c s', s = c :: s' /\ p c = true /\ matches r s'.
Proof.
  rewrite matches_Cat_iff. split.
  - intros (s1 & s2 & -> & H1 & H2).
    apply matches_Class_iff in H1 as (c & -> & Hc).
    exists c, s2. repeat split; assumption.
  - intros (c & s' & -> & Hc & Hr).
    exists [c], s'. split; [reflexivity|]. split; [now constructor|assumption].
Qed.

Lemma list_ascii_of_string_app s1 s2 :
  list_ascii_of_string (s1 +:+ s2) = list_ascii_of_string s1 ++ list_ascii_of_string s2.
Proof.
  induction s1 as [|c s1 IH]; [reflexivity|].
  change (String c s1 +:+ s2) with (String c (s1 +:+ s2)). cbn. f_equal. exact IH.
Qed.

Lemma list_ascii_of_string_length s :
  length (list_ascii_of_string s) = String.length s.
Proof. induction s as [|c s IH]; cbn; [reflexivity|]. f_equal. exact IH. Qed.

Lemma list_ascii_of_string_inj s1 s2 :
  list_ascii_of_string s1 = list_ascii_of_string s2 -> s1 = s2.
Proof.
  intros H. rewrite <- (string_of_list_ascii_of_string s1), H.
  apply string_of_list_ascii_of_string.
Qed.

(** X1.  The e-mail rule accepts exactly the strings of the form
    [local@domain.tld] where [local] is one or more letters, digits or
    [._%+-], [domain] is one or more letters, digits, dots or hyphens,
    and [tld] is two or more letters. *)
Theorem email_pattern_accepts_iff (s : string) :
  test email_pattern s = true <->
  exists local domain tld : string,
    s = local +:+ "@" +:+ domain +:+ "." +:+ tld
    /\ local <> "" /\ domain <> "" /\ 2 <= String.length tld
    /\ forallb local_char (list_ascii_of_string local) = true
    /\ forallb domain_char (list_ascii_of_string domain) = true
    /\ forallb letter (list_ascii_of_string tld) = true.
Proof.
  rewrite test_matches. unfold email_pattern.
  fold local_char. fold domain_char.
  split.
  - intros H. apply matches_Cat_iff in H as (a & rest & Heq & Ha & Hrest).
    apply matches_Plus_Class in Ha as [Hane Ha].
    apply matches_Class_Cat in Hrest as (c & rest' & -> & Hc & Hrest).
    apply Ascii.eqb_eq in Hc. subst c.
    apply matches_Cat_iff in Hrest as (b & rest2 & -> & Hb & Hrest2).
    apply matches_Plus_Class in Hb as [Hbne Hb].
    apply matches_Class_Cat in Hrest2 as (c & t & -> & Hc & Ht).
    apply Ascii.eqb_eq in Hc. subst c.
    apply matches_Class_Cat in Ht as (c1 & t1 & -> & Hc1 & Ht).
    apply matches_Class_Cat in Ht as (c2 & t2 & -> & Hc2 & Ht).
    apply matches_Star_Class in Ht.
    exists (string_of_list_ascii a), (string_of_list_ascii b),
           (string_of_list_ascii (c1 :: c2 :: t2)).
    rewrite !list_ascii_of_string_of_list_ascii.
    split.
    { apply list_ascii_of_string_inj.
      rewrite !list_ascii_of_string_app, !list_ascii_of_string_of_list_ascii.
      rewrite Heq. cbn. reflexivity. }
    split. { intros Hnil. apply Hane.
             rewrite <- (list_ascii_of_string_of_list_ascii a), Hnil. reflexivity. }
    split. { intros Hnil. apply Hbne.
             rewrite <- (list_ascii_of_string_of_list_ascii b), Hnil. reflexivity. }
    split. { rewrite <- list_ascii_of_string_length,
               list_ascii_of_string_of_list_ascii. cbn. lia. }
    split; [exact Ha|]. split; [exact Hb|].
    cbn. now rewrite Hc1, Hc2, Ht.
  - intros (local & domain & tld & -> & Hl & Hd & Hlen & Hla & Hda & Hta).
    rewrite !list_ascii_of_string_app. cbn.
    apply matches_Cat.
    { apply matches_Plus_Class. split; [|exact Hla].
      intros Heq. apply Hl. now apply list_ascii_of_string_inj. }
    apply matches_Class_Cat. eexists _, _. split; [reflexivity|]. split; [reflexivity|].
    apply matches_Cat.
    { apply matches_Plus_Class. split; [|exact Hda].
      intros Heq. apply Hd. now apply list_ascii_of_string_inj. }
    apply matches_Class_Cat. eexists _, _. split; [reflexivity|]. split; [reflexivity|].
    rewrite <- list_ascii_of_string_length in Hlen.
    destruct (list_ascii_of_string tld) as [|c1 [|c2 t]]; cbn in Hlen; try lia.
    cbn in Hta. apply andb_true_iff in Hta as [Hc1 Hta].
    apply andb_true_iff in Hta as [Hc2 Hta].
    apply matches_Class_Cat. eexists _, _. split; [reflexivity|]. split; [exact Hc1|].
    apply matches_Class_Cat. eexists _, _. split; [reflexivity|]. split; [exact Hc2|].
    now apply matches_Star_Class.
Qed.
End Regex.

(** * Further properties of the handlers *)

Section Handlers_more.
Context {E : Engine}.

(** ** [onSubmit]: the failure paths *)

(** X2.  When [fetch] itself rejects (the server cannot be reached),
    [onSubmit] has sent the one request and done nothing else to the
    browser; the display shows the rejection's message, or
    "Registration failed. Please try again." when it has none, and
    [isLoading] is false again. *)
Theorem onSubmit_fetch_rejected (net : network) svcs data st w reason :
  is_Some (find_service svcs (Inputs.specialization data)) ->
  net register_url (register_request data) = Rejected reason ->
  exists st',
    run net (onSubmit svcs data) st w =
      (st', perform (Fetched register_url (register_request data)) w, inr tt)
    /\ error st' =
         Some (if String.eqb (message reason) ""
               then "Registration failed. Please try again."
               else message reason)
    /\ isLoading st' = false.
Proof.
  intros [s Hs] Hnet.
  rewrite run_onSubmit, run_onSubmit_try, Hs. cbn zeta. rewrite Hnet.
  eexists. repeat split.
Qed.

(** X3.  When the response is [ok] but no token can be read from its
    body (the body is [null], or has no [data] object), nothing is
    stored and the page stays: the display shows the message of the
    error the read raised. *)
Theorem onSubmit_ok_without_token (net : network) svcs data st w response result e :
  is_Some (find_service svcs (Inputs.specialization data)) ->
  net register_url (register_request data) = Fulfilled response ->
  ok response = true ->
  json_body response = Fulfilled result ->
  Get_path result ["data"; "token"] = inl e ->
  exists st',
    run net (onSubmit svcs data) st w =
      (st', perform (Fetched register_url (register_request data)) w, inr tt)
    /\ error st' =
         Some (or_else_string (message e) "Registration failed. Please try again.")
    /\ isLoading st' = false.
Proof.
  intros [s Hs] Hnet Hok Hbody Htoken.
  rewrite run_onSubmit, run_onSubmit_try, Hs. cbn zeta.
  rewrite Hnet, Hbody, run_onSubmit_settle, Hok, Htoken.
  eexists. repeat split.
Qed.

Lemma user_summary_without_user result u :
  Get_path result ["data"; "user"] = inr u ->
  u = VUndefined \/ u = VNull ->
  user_summary result = inl (TypeError_read u "id").
Proof.
  intros Hu Hnull. unfold user_summary. cbn in Hu |- *.
  destruct (Get result "data") as [e|d]; [discriminate|].
  destruct (Get d "user") as [e|u']; [discriminate|]. injection Hu as ->.
  destruct Hnull as [-> | ->]; reflexivity.
Qed.

(** X4.  When the response is [ok] and carries a token but no user
    object, the token is written all the same, before the read of the
    user fails: afterwards the [token] entry holds it, the [user] entry
    is as it was, the page has not navigated, and the display shows the
    [TypeError]'s message. *)
Theorem onSubmit_token_without_user
    (net : network) svcs data st w response result token tok u :
  is_Some (find_service svcs (Inputs.specialization data)) ->
  net register_url (register_request data) = Fulfilled response ->
  ok response = true ->
  json_body response = Fulfilled result ->
  Get_path result ["data"; "token"] = inr token ->
  ToString token = inr tok ->
  Get_path result ["data"; "user"] = inr u ->
  u = VUndefined \/ u = VNull ->
  exists st' w',
    run net (onSubmit svcs data) st w = (st', w', inr tt)
    /\ trace w' =
         trace w ++ [Fetched register_url (register_request data); Stored "token" tok]
    /\ localStorage w' !! "token" = Some tok
    /\ localStorage w' !! "user" = localStorage w !! "user"
    /\ location w' = location w
    /\ error st' =
         Some (or_else_string (message (TypeError_read u "id"))
                 "Registration failed. Please try again.")
    /\ isLoading st' = false.
Proof.
  intros [s Hs] Hnet Hok Hbody Htoken Htok Hu Hnull.
  rewrite run_onSubmit, run_onSubmit_try, Hs. cbn zeta.
  rewrite Hnet, Hbody, run_onSubmit_settle, Hok, Htoken, Htok.
  cbn zeta. rewrite (user_summary_without_user _ Hu Hnull).
  eexists _, _. split; [reflexivity|]. cbn [perform trace localStorage].
  split; [now rewrite <- app_assoc|].
  split; [apply lookup_insert_eq|].
  split; [now rewrite lookup_insert_ne by discriminate|].
  split; [now rewrite !location_perform|].
  split; reflexivity.
Qed.

(** ** [onSubmit]: everything it can do to the browser *)

Ltac onSubmit_paths :=
  rewrite run_onSubmit, run_onSubmit_try; cbn zeta;
  repeat match goal with
  | |- context [match find_service ?s ?v with _ => _ end] =>
      destruct (find_service s v) as [?s|]
  | |- context [match ?net register_url ?rq with _ => _ end] =>
      destruct (net register_url rq) as [?response|?reason]
  | |- context [match json_body ?r with _ => _ end] =>
      destruct (json_body r) as [?result|?reason]
  | |- context [run _ (onSubmit_settle _ _) _ _] => rewrite run_onSubmit_settle
  | |- context [if negb (ok ?r) then _ else _] => destruct (negb (ok r))
  | |- context [match Get_path ?r ?p with _ => _ end] =>
      destruct (Get_path r p) as [?e|?token]
  | |- context [match ToString ?t with _ => _ end] =>
      destruct (ToString t) as [?e|?tok]; cbn zeta
  | |- context [match user_summary ?r with _ => _ end] =>
      destruct (user_summary r) as [?e|?summary]
  end.

(** X5.  Whatever the form inputs and whatever the network answers, the
    calls [onSubmit] makes on the browser are one of four sequences:
    none; the request; the request and a write of [token]; or the
    request, a write of [token], a write of [user] and the navigation
    to the dashboard.  The last one is the only one that leaves no
    error on display, so the page never navigates with an error shown
    nor stays without one. *)
Theorem onSubmit_effects_cases (net : network) svcs data st w :
  exists st' w' new,
    run net (onSubmit svcs data) st w = (st', w', inr tt)
    /\ trace w' = trace w ++ new
    /\ onSubmit_effects data new
    /\ (error st' = None <->
        exists tok user,
          new = [ the_request data; Stored "token" tok; Stored "user" user;
                  Navigated "/doctor/dashboard" ]).
Proof.
  onSubmit_paths.
  all: first
    [ eexists _, _, []; (split; [reflexivity|]); cbn [perform trace];
      (split; [now rewrite app_nil_r|]); (split; [constructor|]);
      (split; [discriminate|intros (? & ? & ?); discriminate])
    | eexists _, _, [_]; (split; [reflexivity|]); cbn [perform trace];
      (split; [reflexivity|]); (split; [constructor|]);
      (split; [discriminate|intros (? & ? & ?); discriminate])
    | eexists _, _, [_; _]; (split; [reflexivity|]); cbn [perform trace];
      (split; [now rewrite <- app_assoc|]); (split; [constructor|]);
      (split; [discriminate|intros (? & ? & ?); discriminate])
    | eexists _, _, [_; _; _; _]; (split; [reflexivity|]); cbn [perform trace];
      (split; [now rewrite <- !app_assoc|]); (split; [constructor|]);
      (split; [intros _; eexists _, _; reflexivity|reflexivity]) ].
Qed.

(** X6.  [onSubmit] writes no storage entry other than [token] and
    [user]: every other key reads the same before and after, whatever
    the inputs and the network's answer. *)
Theorem onSubmit_keeps_other_keys (net : network) svcs data st w (key : string) :
  key <> "token" -> key <> "user" ->
  localStorage (run net (onSubmit svcs data) st w).1.2 !! key = localStorage w !! key.
Proof.
  intros Htoken Huser. onSubmit_paths; cbn;
    rewrite ?lookup_insert_ne by congruence; reflexivity.
Qed.

(** ** Selecting, then submitting *)

(** X7.  After a service of the list has been selected, submitting the
    form passes the specialization check and sends a request whose
    body carries the selected name as [specialization] and the other
    fields as they stood. *)
Theorem select_then_submit (net : network) (v : string) (st : Hooks) w s :
  s ∈ services st -> Service.name s = v ->
  exists st' w' later,
    run net (onSubmit (services (handleServiceChange v st))
                      (values (handleServiceChange v st)))
        (handleServiceChange v st) w = (st', w', inr tt)
    /\ trace w' =
         trace w ++
         Fetched "http://localhost:5000/api/auth/doctor/register"
           {| method := "POST";
              headers := [("Content-Type", "application/json")];
              body := JSON_stringify (VObj
                [ ("name", VStr (Inputs.name (values st)));
                  ("email", VStr (Inputs.email (values st)));
                  ("password", VStr (Inputs.password (values st)));
                  ("specialization", VStr v);
                  ("phoneNumber", VStr (Inputs.phoneNumber (values st)));
                  ("address", VStr (Inputs.address (values st)));
                  ("role", VStr "doctor") ]) |} :: later.
Proof.
  intros Hin Hname.
  destruct (find_service (services st) v) as [s'|] eqn:Hfind.
  2: { exfalso. exact (proj1 (find_service_None _ _) Hfind s Hin Hname). }
  destruct (find_service_Some _ _ Hfind) as [_ Hname'].
  assert (Hh : handleServiceChange v st =
               with_selectedServiceDetails (Some (details_of s'))
                 (setValue_specialization v st)).
  { unfold handleServiceChange. rewrite Hfind, Hname'. reflexivity. }
  rewrite Hh. unfold setValue_specialization.
  cbn [services values with_selectedServiceDetails with_values with_select_value
       Inputs.setValue_specialization Inputs.specialization].
  rewrite run_onSubmit, run_onSubmit_try.
  cbn [Inputs.specialization Inputs.setValue_specialization]. rewrite Hfind. cbn zeta.
  repeat match goal with
  | |- context [match ?net register_url ?rq with _ => _ end] =>
      destruct (net register_url rq) as [?response|?reason]
  | |- context [match json_body ?r with _ => _ end] =>
      destruct (json_body r) as [?result|?reason]
  | |- context [run _ (onSubmit_settle _ _) _ _] => rewrite run_onSubmit_settle
  | |- context [if negb (ok ?r) then _ else _] => destruct (negb (ok r))
  | |- context [match Get_path ?r ?p with _ => _ end] =>
      destruct (Get_path r p) as [?e|?token]
  | |- context [match ToString ?t with _ => _ end] =>
      destruct (ToString t) as [?e|?tok]; cbn zeta
  | |- context [match user_summary ?r with _ => _ end] =>
      destruct (user_summary r) as [?e|?summary]
  end.
  all: first
    [ eexists _, _, []; (split; [reflexivity|]); reflexivity
    | eexists _, _, [_]; (split; [reflexivity|]); cbn [perform trace];
      now rewrite <- app_assoc
    | eexists _, _, [_; _; _]; (split; [reflexivity|]); cbn [perform trace];
      now rewrite <- !app_assoc ].
Qed.

(** X8.  Selections compose: selecting the same name twice is selecting
    it once; a selection that names a service overrides the one before
    it; a selection that names none (the placeholder, say) leaves the
    one before it standing, specialization and details alike. *)
Theorem handleServiceChange_last_wins (v1 v2 : string) (st : Hooks) :
  handleServiceChange v1 (handleServiceChange v1 st) = handleServiceChange v1 st
  /\ (is_Some (find_service (services st) v2) ->
      handleServiceChange v2 (handleServiceChange v1 st) = handleServiceChange v2 st)
  /\ (find_service (services st) v2 = None ->
      handleServiceChange v2 (handleServiceChange v1 st) = handleServiceChange v1 st).
Proof.
  assert (Hs : forall v, services (handleServiceChange v st) = services st).
  { intros v. apply handleServiceChange_frame. }
  split; [|split].
  - unfold handleServiceChange at 1. rewrite Hs.
    unfold handleServiceChange.
    destruct (find_service (services st) v1); reflexivity.
  - intros [s2 H2]. unfold handleServiceChange at 1. rewrite Hs, H2.
    unfold handleServiceChange. rewrite H2.
    destruct (find_service (services st) v1); reflexivity.
  - intros H2. unfold handleServiceChange at 1. rewrite Hs, H2. reflexivity.
Qed.

(** ** Which forms are submitted *)

Lemma validateField_only_required msg r x :
  validateField (only_required msg) r x = None <-> x <> "" /\ r <> "".
Proof.
  unfold validateField, first_error, check_required, check_minLength,
    check_pattern, check_validate, isEmpty. cbn.
  destruct (String.eqb_spec x ""), (String.eqb_spec r ""); cbn; split;
    try discriminate; try (intros [? ?]; congruence); auto.
Qed.

Lemma test_email_pattern_nonempty x : test email_pattern x = true -> x <> "".
Proof. intros H ->. discriminate. Qed.

Lemma validateField_email x :
  validateField
    {| required := Some "Email is required"; minLength := None;
       pattern := Some (email_pattern, "Invalid email address");
       validate := None |} x x = None
  <-> test email_pattern x = true.
Proof.
  unfold validateField, first_error, check_required, check_minLength,
    check_pattern, check_validate, isEmpty. cbn -[test email_pattern].
  destruct (String.eqb_spec x "") as [->|Hne]; cbn -[test email_pattern].
  - split; discriminate.
  - destruct (test email_pattern x); cbn; split; congruence.
Qed.

Lemma validateField_password x :
  validateField
    {| required := Some "Password is required";
       minLength := Some (6, "Password must be at least 6 characters");
       pattern := None; validate := None |} x x = None
  <-> 6 <= String.length x.
Proof.
  unfold validateField, first_error, check_required, check_minLength,
    check_pattern, check_validate, isEmpty. cbn -[Nat.ltb].
  destruct (String.eqb_spec x "") as [->|Hne]; cbn -[Nat.ltb].
  - split; [discriminate|lia].
  - destruct (Nat.ltb_spec (String.length x) 6); cbn; split; intros;
      try discriminate; try lia; reflexivity.
Qed.

Lemma validateField_confirmPassword password x :
  6 <= String.length password ->
  validateField
    {| required := Some "Please confirm your password"; minLength := None;
       pattern := None;
       validate := Some (fun value =>
         if String.eqb value password then None
         else Some "The passwords do not match") |} x x = None
  <-> x = password.
Proof.
  intros Hlen.
  unfold validateField, first_error, check_required, check_minLength,
    check_pattern, check_validate, isEmpty. cbn.
  destruct (String.eqb_spec x "") as [->|Hne]; cbn.
  - split; [discriminate|]. intros <-. cbn in Hlen. lia.
  - destruct (String.eqb_spec x password); cbn; split; congruence.
Qed.

(** X9.  [handleSubmit] leaves the field errors empty exactly when the
    name, phone number and address are non-empty, the select shows a
    service (not its placeholder) and the specialization held by the
    form is non-empty, the e-mail matches the pattern, the password has
    six code units or more and the confirmation equals it; and then
    what it runs is the handler applied to the field values. *)
Theorem handleSubmit_accepts_iff (onValid : RegisterFormInputs -> prog unit) (st : Hooks) :
  (errors (handleSubmit onValid st).1 = [] <->
     Inputs.name (values st) <> ""
     /\ test email_pattern (Inputs.email (values st)) = true
     /\ (Inputs.specialization (values st) <> "" /\ select_value st <> "")
     /\ Inputs.phoneNumber (values st) <> ""
     /\ Inputs.address (values st) <> ""
     /\ 6 <= String.length (Inputs.password (values st))
     /\ Inputs.confirmPassword (values st) = Inputs.password (values st))
  /\ (errors (handleSubmit onValid st).1 = [] ->
      (handleSubmit onValid st).2 = onValid (values st)).
Proof.
  unfold handleSubmit. cbn [fst snd errors with_errors].
  split.
  - unfold validateFields, registered, refs.
    cbn [omap list_omap Inputs.name Inputs.email Inputs.specialization
         Inputs.phoneNumber Inputs.address Inputs.password Inputs.confirmPassword
         Inputs.setValue_specialization].
    pose proof (validateField_only_required "Name is required"
                  (Inputs.name (values st)) (Inputs.name (values st))) as H1.
    pose proof (validateField_email (Inputs.email (values st))) as H2.
    pose proof (validateField_only_required "Service selection is required"
                  (select_value st) (Inputs.specialization (values st))) as H3.
    pose proof (validateField_only_required "Phone number is required"
                  (Inputs.phoneNumber (values st))
                  (Inputs.phoneNumber (values st))) as H4.
    pose proof (validateField_only_required "Address is required"
                  (Inputs.address (values st)) (Inputs.address (values st))) as H5.
    pose proof (validateField_password (Inputs.password (values st))) as H6.
    pose proof (@validateField_confirmPassword
                  (Inputs.password (values st))
                  (Inputs.confirmPassword (values st))) as H7.
    destruct (validateField _ _ (Inputs.name (values st)));
      [split; [discriminate|intros (H & _); assert (H0 := conj H H);
                            apply H1 in H0; discriminate]|].
    destruct (validateField _ _ (Inputs.email (values st)));
      [split; [discriminate|intros (_ & H & _); apply H2 in H; discriminate]|].
    destruct (validateField _ _ (Inputs.specialization (values st)));
      [split; [discriminate|intros (_ & _ & H & _); apply H3 in H; discriminate]|].
    destruct (validateField _ _ (Inputs.phoneNumber (values st)));
      [split; [discriminate|intros (_ & _ & _ & H & _); assert (H0 := conj H H);
                            apply H4 in H0; discriminate]|].
    destruct (validateField _ _ (Inputs.address (values st)));
      [split; [discriminate|intros (_ & _ & _ & _ & H & _); assert (H0 := conj H H);
                            apply H5 in H0; discriminate]|].
    destruct (validateField _ _ (Inputs.password (values st)));
      [split; [discriminate|intros (_ & _ & _ & _ & _ & H & _); apply H6 in H; discriminate]|].
    assert (Hlen : 6 <= String.length (Inputs.password (values st))) by now apply H6.
    specialize (H7 Hlen).
    destruct (validateField _ _ (Inputs.confirmPassword (values st)));
      [split; [discriminate|intros (_ & _ & _ & _ & _ & _ & H); apply H7 in H; discriminate]|].
    split; [intros _|reflexivity].
    repeat split; [now apply H1|now apply H2|now apply H3|now apply H3
                  |now apply H4|now apply H5|exact Hlen|now apply H7].
  - intros Hnil. rewrite Hnil. reflexivity.
Qed.

(** ** The select's options *)

(** X10.  Every option the select offers besides the placeholder is the
    name of a service, and choosing it makes that name the
    specialization and puts the duration and price of the first service
    so named into the two detail fields. *)
Theorem select_option_shows_details (st : Hooks) (v text : string) :
  (v, text) ∈ select_options st -> (v, text) <> ("", "Select a service") ->
  exists s,
    find_service (services st) v = Some s
    /\ s ∈ services st /\ Service.name s = v
    /\ Inputs.specialization (values (handleServiceChange v st)) = v
    /\ duration_field (handleServiceChange v st)
       = Number_toString (Service.duration s) +:+ " minutes"
    /\ price_field (handleServiceChange v st)
       = "$" +:+ Number_toString (Service.price s).
Proof.
  unfold select_options. intros Hin Hne.
  apply elem_of_cons in Hin as [Heq|Hin]; [contradiction|].
  apply list_elem_of_fmap in Hin as (s0 & Heq & Hin0). injection Heq as -> _.
  destruct (find_service (services st) (Service.name s0)) as [s|] eqn:Hfind.
  2: { exfalso. exact (proj1 (find_service_None _ _) Hfind s0 Hin0 eq_refl). }
  destruct (find_service_Some _ _ Hfind) as [Hin Hname].
  exists s. split; [reflexivity|]. split; [exact Hin|]. split; [exact Hname|].
  unfold handleServiceChange, duration_field, price_field.
  rewrite Hfind. cbn. repeat split. exact Hname.
Qed.
End Handlers_more.

(** * Further properties of the page between events *)

Section Page_more.
Context {E : Engine}.

Lemma steps_app c evs1 evs2 :
  steps c (evs1 ++ evs2) =
  match steps c evs1 with
  | Some c1 => steps c1 evs2
  | None => None
  end.
Proof.
  revert c. induction evs1 as [|ev evs1 IH]; intros c; cbn; [reflexivity|].
  destruct (step c ev); [apply IH|reflexivity].
Qed.

(** ** The service list *)

Lemma step_services c ev c' :
  step c ev = Some c' -> fetchingServices c = false ->
  services (hooks c') = services (hooks c) /\ fetchingServices c' = false.
Proof.
  intros Hstep Hfs.
  destruct ev as [data|reason|ctl v|v| | | |i r|i]; unfold step in Hstep.
  - rewrite Hfs in Hstep. discriminate.
  - rewrite Hfs in Hstep. discriminate.
  - destruct (mounted c); [|discriminate]. injection Hstep as <-. auto.
  - destruct (mounted c && _); [|discriminate]. injection Hstep as <-.
    split; [|exact Hfs]. cbn [hooks with_hooks].
    exact (proj2 (proj2 (handleServiceChange_frame v _))).
  - destruct (mounted c); [|discriminate]. injection Hstep as <-. auto.
  - destruct (mounted c && negb (submit_disabled (hooks c))); [|discriminate].
    destruct (handleSubmit _ (hooks c)) as [st p] eqn:Hhs. injection Hstep as <-.
    destruct (resume_frame p (in_flight c) (with_hooks st c)) as [-> _].
    unfold handleSubmit in Hhs. injection Hhs as <- _.
    split; [reflexivity|]. unfold resume.
    destruct (advance _ _ _) as [[? ?] ?]. exact Hfs.
  - destruct (mounted c); [|discriminate]. injection Hstep as <-. auto.
  - destruct (in_flight c !! i) as [[k|response k]|]; try discriminate.
    injection Hstep as <-.
    destruct (resume_frame (k r) (delete i (in_flight c)) c) as [-> _].
    split; [reflexivity|]. unfold resume.
    destruct (advance _ _ _) as [[? ?] ?]. exact Hfs.
  - destruct (in_flight c !! i) as [[k|response k]|]; try discriminate.
    injection Hstep as <-.
    destruct (resume_frame (k (json_body response)) (delete i (in_flight c)) c)
      as [-> _].
    split; [reflexivity|]. unfold resume.
    destruct (advance _ _ _) as [[? ?] ?]. exact Hfs.
Qed.

(** X11.  The service list is set at most once: it is empty until the
    [getServices()] call of the mount effect has settled, and from then
    on no sequence of events changes it. *)
Theorem services_set_once (c : Config) :
  reachable c ->
  (fetchingServices c = true -> services (hooks c) = [])
  /\ (forall evs c',
        steps c evs = Some c' -> fetchingServices c = false ->
        services (hooks c') = services (hooks c)).
Proof.
  intros Hreach. split.
  - intros Hfs. destruct (reachable_consistent Hreach) as [Hfetch _].
    apply (Hfetch Hfs).
  - intros evs. revert c Hreach.
    induction evs as [|ev evs IH]; intros c Hreach c' Hsteps Hfs; cbn in Hsteps.
    + injection Hsteps as <-. reflexivity.
    + destruct (step c ev) as [c1|] eqn:Hstep; [|discriminate].
      destruct (step_services _ _ Hstep Hfs) as [Hs Hfs1].
      rewrite <- Hs. apply IH; [|exact Hsteps|exact Hfs1].
      exact (reachable_step ev Hreach Hstep).
Qed.

(** With the select on its placeholder, [handleSubmit] records that a
    service is required and does not run the handler. *)
Lemma handleSubmit_placeholder (onValid : RegisterFormInputs -> prog unit) st :
  select_value st = "" ->
  exists errs,
    ("specialization", "Service selection is required") ∈ errs
    /\ handleSubmit onValid st = (with_errors errs st, Ret tt).
Proof.
  intros Hsel. unfold handleSubmit. cbn zeta.
  assert (Hin : ("specialization", "Service selection is required")
                ∈ validateFields (registered (Inputs.password (values st)))
                    (refs st) (values st)).
  { unfold validateFields. apply list_elem_of_omap.
    exists ("specialization", only_required "Service selection is required",
            Inputs.specialization).
    split; [unfold registered; set_solver|].
    unfold refs. rewrite Hsel. cbn [Inputs.setValue_specialization Inputs.specialization].
    unfold validateField, first_error, check_required, isEmpty. cbn.
    now rewrite orb_true_r. }
  destruct (validateFields _ _ _) as [|err errs]; [inversion Hin|].
  eexists. split; [exact Hin|reflexivity].
Qed.

(** On a page without services an event needs the page on screen; it
    leaves the page without services and the error as it was; it
    touches the browser only to follow the sign-in link; and a
    submission is refused by the specialization's rule. *)
Lemma step_without_services c ev c' :
  without_services c -> step c ev = Some c' ->
  mounted c = true
  /\ without_services c'
  /\ error (hooks c') = error (hooks c)
  /\ (browser c' = browser c
      \/ browser c' = perform (Navigated "/doctor/login") (browser c))
  /\ (ev = Submit ->
      browser c' = browser c
      /\ ("specialization", "Service selection is required") ∈ errors (hooks c')).
Proof.
  intros (Hfs & Hs & Hnil & Hd & Hsel) Hstep.
  destruct ev as [data|reason|ctl v|v| | | |i r|i]; unfold step in Hstep.
  - rewrite Hfs in Hstep. discriminate.
  - rewrite Hfs in Hstep. discriminate.
  - destruct (mounted c); [|discriminate]. injection Hstep as <-.
    split; [reflexivity|]. split; [repeat split; assumption|].
    split; [reflexivity|]. split; [left; reflexivity|discriminate].
  - destruct (mounted c); [|discriminate]. cbn [andb] in Hstep.
    destruct (bool_decide _) eqn:Hv; [|discriminate].
    apply bool_decide_eq_true in Hv. rewrite select_values, Hs in Hv.
    apply list_elem_of_singleton in Hv as ->.
    injection Hstep as <-.
    unfold handleServiceChange. cbn [services with_select_value]. rewrite Hs.
    cbn [find_service find].
    split; [reflexivity|]. split; [repeat split; assumption|].
    split; [reflexivity|]. split; [left; reflexivity|discriminate].
  - destruct (mounted c); [|discriminate]. injection Hstep as <-.
    split; [reflexivity|]. split; [repeat split; assumption|].
    split; [reflexivity|]. split; [left; reflexivity|discriminate].
  - destruct (mounted c) eqn:Hm; [|discriminate].
    destruct (negb (submit_disabled (hooks c))); [|discriminate].
    cbn [andb] in Hstep.
    destruct (handleSubmit_placeholder (onSubmit (services (hooks c))) (hooks c) Hsel)
      as (errs & Hin & Hhs).
    rewrite Hhs in Hstep. injection Hstep as <-.
    unfold resume. rewrite mounted_with_hooks, Hm. cbn. rewrite Hnil.
    split; [reflexivity|]. split; [repeat split; assumption|].
    split; [reflexivity|]. split; [left; reflexivity|].
    intros _. split; [reflexivity|exact Hin].
  - destruct (mounted c); [|discriminate]. injection Hstep as <-.
    split; [reflexivity|]. split; [repeat split; assumption|].
    split; [reflexivity|]. split; [right; reflexivity|discriminate].
  - rewrite Hnil in Hstep. discriminate.
  - rewrite Hnil in Hstep. discriminate.
Qed.

(** X12.  When the [getServices()] call fails, the page can no longer
    register anybody: whatever events follow, nothing is fetched or
    stored and the only way off the page is the sign-in link; the
    select offers its placeholder alone, no details are shown, no error
    is set, and every submission is refused with "Service selection is
    required" without reaching the browser. *)
Theorem no_services_no_registration (c c1 : Config) reason :
  reachable c ->
  step c (GetServices_rejected reason) = Some c1 ->
  forall evs c2, steps c1 evs = Some c2 ->
    (browser c2 = browser c
     \/ browser c2 = perform (Navigated "/doctor/login") (browser c))
    /\ services (hooks c2) = []
    /\ select_options (hooks c2) = [("", "Select a service")]
    /\ selectedServiceDetails (hooks c2) = None
    /\ in_flight c2 = []
    /\ error (hooks c2) = error (hooks c)
    /\ (forall c3, step c2 Submit = Some c3 ->
          browser c3 = browser c
          /\ ("specialization", "Service selection is required") ∈ errors (hooks c3)
          /\ error (hooks c3) = error (hooks c)
          /\ in_flight c3 = []).
Proof.
  intros Hreach Hstep.
  assert (Hdead : without_services c1 /\ browser c1 = browser c
                  /\ error (hooks c1) = error (hooks c)).
  { unfold step in Hstep. destruct (fetchingServices c) eqn:Hfs; [|discriminate].
    injection Hstep as <-.
    pose proof (reachable_consistent Hreach) as Hc.
    apply (proj1 (consistent_iff _)) in Hc. destruct Hc as (Hfetch & Hsel & Hpark).
    destruct (Hfetch Hfs) as (Hs & Hnil).
    rewrite Hs in Hsel. apply list_elem_of_singleton in Hsel.
    split; [|split; reflexivity]. repeat split; cbn; try assumption.
    destruct (reachable_details Hreach) as [Hd|(s & Hin & _)]; [exact Hd|].
    rewrite Hs in Hin. inversion Hin. }
  clear Hstep Hreach. destruct Hdead as (Hdead & Hb & He).
  assert (Hw : browser c1 = browser c
               \/ browser c1 = perform (Navigated "/doctor/login") (browser c))
    by (left; exact Hb).
  assert (Hon : mounted c1 = true -> browser c1 = browser c).
  { intros _. exact Hb. }
  clear Hb. rewrite <- He. clear He.
  intros evs. revert c1 Hdead Hw Hon.
  induction evs as [|ev evs IH]; intros c1 Hdead Hw Hon c2 Hsteps; cbn in Hsteps.
  - injection Hsteps as <-. pose proof Hdead as (_ & Hs & Hnil & Hd & _).
    split; [exact Hw|]. split; [exact Hs|].
    split; [unfold select_options; now rewrite Hs|].
    split; [exact Hd|]. split; [exact Hnil|]. split; [reflexivity|].
    intros c3 Hstep.
    destruct (step_without_services _ Hdead Hstep)
      as (Hm & (_ & _ & Hnil' & _) & He & _ & Hsub).
    destruct (Hsub eq_refl) as [Hb Hin].
    split; [rewrite Hb; exact (Hon Hm)|]. split; [exact Hin|].
    split; [exact He|exact Hnil'].
  - destruct (step c1 ev) as [c1'|] eqn:Hstep; [|discriminate].
    destruct (step_without_services _ Hdead Hstep) as (Hm & Hdead' & He & Hb & _).
    rewrite <- He. apply (IH c1' Hdead'); [| |exact Hsteps].
    + rewrite <- (Hon Hm). exact Hb.
    + intros Hm'. rewrite <- (Hon Hm). destruct Hb as [Hb|Hb]; [exact Hb|].
      unfold mounted in Hm'. rewrite Hb, location_perform in Hm'. discriminate.
Qed.

(** ** One submission, event by event *)

(** X13.  Carrying one submission through the event loop (submit, the
    fetch settles, the body is read) with nothing in between leaves the
    hooks and the browser exactly as [onSubmit] run in one go against
    that answer leaves them, and nothing in flight. *)
Theorem submission_agrees_with_run (c : Config) (r : settled Response) :
  reachable c ->
  phase_of c = Idle ->
  errors (handleSubmit (onSubmit (services (hooks c))) (hooks c)).1 = [] ->
  is_Some (find_service (services (hooks c)) (Inputs.specialization (values (hooks c)))) ->
  exists c',
    steps c (submission r) = Some c'
    /\ run (fun _ _ => r) (onSubmit (services (hooks c)) (values (hooks c)))
         (with_errors [] (hooks c)) (browser c)
       = (hooks c', browser c', inr tt)
    /\ in_flight c' = [] /\ fetchingServices c' = fetchingServices c.
Proof.
  intros Hreach Hidle Hvalid [s Hs].
  pose proof (reachable_consistent Hreach) as Hc.
  assert (Hm : mounted c = true /\ isLoading (hooks c) = false).
  { unfold phase_of, mounted in *. destruct (location (browser c)); [discriminate|].
    destruct (isLoading (hooks c)); [discriminate|auto]. }
  destruct Hm as [Hm Hl]. pose proof (consistent_idle Hc Hl) as Hnil.
  assert (Hhs : handleSubmit (onSubmit (services (hooks c))) (hooks c)
                = (with_errors [] (hooks c),
                   onSubmit (services (hooks c)) (values (hooks c)))).
  { destruct (handleSubmit_cases (onSubmit (services (hooks c))) (hooks c))
      as [(errs & Hne & Hhs)|Hhs]; [|exact Hhs].
    rewrite Hhs in Hvalid. cbn in Hvalid. contradiction. }
  assert (Hloc : location (browser c) = None) by now apply mounted_location.
  rewrite run_onSubmit, run_onSubmit_try, Hs. cbn zeta.
  unfold submission. cbn [steps]. unfold step at 1. unfold submit_disabled.
  rewrite Hm, Hl, Hhs. cbn [andb negb]. unfold resume at 1.
  rewrite mounted_with_hooks, Hm.
  cbn [hooks browser with_hooks]. rewrite advance_onSubmit, Hs, Hnil.
  cbn [app]. unfold step at 1. cbn [in_flight lookup list_lookup].
  unfold resume at 1. unfold mounted at 1. cbn [hooks browser].
  rewrite location_perform, Hloc. rewrite advance_after_fetch.
  destruct r as [response|reason].
  2: { eexists. split; [reflexivity|]. cbn. repeat split. }
  cbn [delete list_delete app steps]. unfold step at 1.
  cbn [in_flight lookup list_lookup]. unfold resume at 1. unfold mounted at 1.
  cbn [hooks browser]. rewrite location_perform, Hloc.
  rewrite advance_after_json.
  destruct (json_body response) as [result|reason].
  2: { eexists. split; [reflexivity|]. cbn. repeat split. }
  rewrite run_onSubmit_settle.
  destruct (negb (ok response)).
  { eexists. split; [reflexivity|]. cbn. repeat split. }
  destruct (Get_path result ["data"; "token"]) as [e|token].
  { eexists. split; [reflexivity|]. cbn. repeat split. }
  destruct (ToString token) as [e|tok].
  { eexists. split; [reflexivity|]. cbn. repeat split. }
  cbn zeta. destruct (user_summary result) as [e|summary].
  - eexists. split; [reflexivity|]. cbn. repeat split.
  - eexists. split; [reflexivity|]. cbn. repeat split.
Qed.
End Page_more.

Section Session.
Context {E : Engine}.

(** ** What reaches the browser *)

(** One event does one of five things to the browser: nothing; follow
    the sign-in link; send the registration request; write the token;
    or write token and user and navigate to the dashboard.  It sets the
    displayed error, if at all, to nothing or to a non-empty message. *)
Lemma step_browser c ev c' :
  consistent c -> step c ev = Some c' ->
  (browser c' = browser c
   \/ browser c' = perform (Navigated "/doctor/login") (browser c)
   \/ (exists data, browser c' = perform (the_request data) (browser c))
   \/ (exists tok, browser c' = perform (Stored "token" tok) (browser c))
   \/ (exists tok user,
         browser c' =
           perform (Navigated "/doctor/dashboard")
             (perform (Stored "user" user)
                (perform (Stored "token" tok) (browser c)))))
  /\ (error (hooks c') = error (hooks c)
      \/ error (hooks c') = None
      \/ exists err,
           error (hooks c') =
             Some (or_else_string (message err) "Registration failed. Please try again.")).
Proof.
  intros Hc Hstep.
  destruct ev as [data|reason|ctl v|v| | | |i r|i]; unfold step in Hstep.
  - destruct (fetchingServices c); [|discriminate]. injection Hstep as <-.
    cbn. destruct (mounted c); auto.
  - destruct (fetchingServices c); [|discriminate]. injection Hstep as <-. auto.
  - destruct (mounted c); [|discriminate]. injection Hstep as <-. auto.
  - destruct (mounted c && _); [|discriminate]. injection Hstep as <-.
    split; [auto|]. left. cbn [hooks with_hooks].
    exact (proj1 (proj2 (handleServiceChange_frame v _))).
  - destruct (mounted c); [|discriminate]. injection Hstep as <-. auto.
  - destruct (mounted c) eqn:Hm; [|discriminate].
    destruct (negb (submit_disabled (hooks c))); [|discriminate].
    cbn [andb] in Hstep.
    destruct (handleSubmit_cases (onSubmit (services (hooks c))) (hooks c))
      as [(errs & Hne & Hhs)|Hhs]; rewrite Hhs in Hstep; injection Hstep as <-;
      unfold resume; rewrite mounted_with_hooks, Hm.
    + cbn. auto.
    + cbn [hooks browser with_hooks]. rewrite advance_onSubmit.
      destruct (find_service _ _); cbn.
      * split; [right; right; left; eexists; reflexivity|auto].
      * split; [auto|]. right. right.
        exists (new_Error "Please select a valid specialization"). reflexivity.
  - destruct (mounted c); [|discriminate]. injection Hstep as <-. auto.
  - destruct (in_flight c !! i) as [[k|response k]|] eqn:Hi; try discriminate.
    injection Hstep as <-.
    destruct (in_flight_singleton i Hc Hi) as (-> & _ & _ & _ & _ & ->).
    unfold resume. rewrite advance_after_fetch.
    destruct r as [response|reason]; cbn; destruct (mounted c); auto.
    split; [auto|]. right. right. eexists. reflexivity.
  - destruct (in_flight c !! i) as [[k|response k]|] eqn:Hi; try discriminate.
    injection Hstep as <-.
    destruct (in_flight_singleton i Hc Hi) as (-> & _ & _ & _ & _ & ->).
    unfold resume. rewrite advance_after_json.
    destruct (json_body response) as [result|reason].
    2: { cbn. destruct (mounted c); [|auto].
         split; [auto|]. right. right. eexists. reflexivity. }
    destruct (negb (ok response)).
    { cbn. destruct (mounted c); [|auto].
      split; [auto|]. right. right. eexists. reflexivity. }
    destruct (Get_path result ["data"; "token"]) as [e|token].
    { cbn. destruct (mounted c); [|auto].
      split; [auto|]. right. right. eexists. reflexivity. }
    destruct (ToString token) as [e|tok].
    { cbn. destruct (mounted c); [|auto].
      split; [auto|]. right. right. eexists. reflexivity. }
    cbn zeta. destruct (user_summary result) as [e|summary]; cbn.
    + split; [right; right; right; left; eexists; reflexivity|].
      destruct (mounted c); [|auto]. right. right. eexists. reflexivity.
    + split; [|destruct (mounted c); auto].
      right. right. right. right. eexists _, _. reflexivity.
Qed.

Lemma session_kept_step storage c ev c' :
  consistent c -> step c ev = Some c' ->
  session_kept storage (browser c) -> session_kept storage (browser c').
Proof.
  intros Hc Hstep [Hframe Hnav].
  destruct (step_browser _ Hc Hstep)
    as [[Hb|[Hb|[(data & Hb)|[(tok & Hb)|(tok & user & Hb)]]]] _];
    rewrite Hb; clear Hb; split.
  - exact Hframe.
  - exact Hnav.
  - exact Hframe.
  - intros to. rewrite location_perform. intros [= <-]. now left.
  - intros key H1 H2. cbn. now apply Hframe.
  - intros to. rewrite location_perform. cbn. apply Hnav.
  - intros key H1 H2. cbn. rewrite lookup_insert_ne by congruence. now apply Hframe.
  - intros to. rewrite location_perform. cbn. intros Hto.
    destruct (Hnav to Hto) as [->|(-> & [x Hx] & [y Hy])]; [now left|].
    right. split; [reflexivity|].
    split; [rewrite lookup_insert_eq; now eexists|].
    rewrite lookup_insert_ne by discriminate. exists y. exact Hy.
  - intros key H1 H2. cbn. rewrite !lookup_insert_ne by congruence. now apply Hframe.
  - intros to. rewrite location_perform. intros [= <-]. right.
    split; [reflexivity|]. cbn.
    split; [rewrite lookup_insert_ne by discriminate;
            rewrite lookup_insert_eq; now eexists|].
    rewrite lookup_insert_eq. now eexists.
Qed.

(** X14.  However the page is used from a fresh mount, it writes no
    storage entry other than [token] and [user], and if the browser has
    left the page then it is for the login page, by the sign-in link,
    or for the dashboard, and for the dashboard only with a token and a
    user summary in storage. *)
Theorem navigation_requires_session (storage : gmap string string) evs c :
  steps (initial storage) evs = Some c ->
  (forall key, key <> "token" -> key <> "user" ->
     localStorage (browser c) !! key = storage !! key)
  /\ (forall to, location (browser c) = Some to ->
        to = "/doctor/login"
        \/ (to = "/doctor/dashboard"
            /\ is_Some (localStorage (browser c) !! "token")
            /\ is_Some (localStorage (browser c) !! "user"))).
Proof.
  intros Hsteps.
  assert (Hgen : forall evs c0 c1,
            reachable c0 -> session_kept storage (browser c0) ->
            steps c0 evs = Some c1 -> session_kept storage (browser c1)).
  { clear. intros evs. induction evs as [|ev evs IH]; intros c0 c1 Hr Hk Hs; cbn in Hs.
    - injection Hs as <-. exact Hk.
    - destruct (step c0 ev) as [c0'|] eqn:Hstep; [|discriminate].
      apply (IH c0'); [exact (reachable_step ev Hr Hstep)| |exact Hs].
      exact (session_kept_step _ (reachable_consistent Hr) Hstep Hk). }
  apply (Hgen evs (initial storage) c); [apply reachable_initial| |exact Hsteps].
  split; [reflexivity|]. intros to Hto. discriminate.
Qed.

(** X15.  In every configuration the page can reach, the error state is
    never the empty string, so whenever an error is set the banner is
    rendered with exactly that text. *)
Theorem error_banner_shows_error (c : Config) :
  reachable c ->
  error (hooks c) <> Some "" /\ error_banner (hooks c) = error (hooks c).
Proof.
  intros Hreach.
  assert (Hne : error (hooks c) <> Some "").
  { induction Hreach as [storage|c ev c' Hreach IH Hstep]; [discriminate|].
    destruct (step_browser _ (reachable_consistent Hreach) Hstep)
      as [_ [He|[He|(err & He)]]]; rewrite He; [exact IH|discriminate|].
    intros [= H]. revert H. apply or_else_string_nonempty. discriminate. }
  split; [exact Hne|]. unfold error_banner.
  destruct (error (hooks c)) as [e|]; [|reflexivity].
  destruct (String.eqb_spec e ""); [subst; contradiction|reflexivity].
Qed.
End Session.

Section Success.
Context {E : Engine}.

(** ** When registration succeeds *)

(** X16.  [onSubmit] ends without an error on display exactly when the
    specialization names a service, the fetch is fulfilled with an [ok]
    response whose body parses, a token can be read from [data.token]
    and converted to a string, and [data.user] is neither [undefined]
    nor [null].  In every other case an error is displayed. *)
Theorem onSubmit_succeeds_iff (net : network) svcs data st w :
  error (run net (onSubmit svcs data) st w).1.1 = None <->
  exists response result token tok user,
    is_Some (find_service svcs (Inputs.specialization data))
    /\ net register_url (register_request data) = Fulfilled response
    /\ ok response = true
    /\ json_body response = Fulfilled result
    /\ Get_path result ["data"; "token"] = inr token
    /\ ToString token = inr tok
    /\ Get_path result ["data"; "user"] = inr user
    /\ user <> VUndefined /\ user <> VNull.
Proof.
  rewrite run_onSubmit, run_onSubmit_try. cbn zeta.
  destruct (find_service svcs (Inputs.specialization data)) as [s|].
  2: { split; [discriminate|]. intros (? & ? & ? & ? & ? & [? H] & _). discriminate. }
  destruct (net register_url (register_request data)) as [response|reason].
  2: { split; [discriminate|]. intros (? & ? & ? & ? & ? & _ & H & _). discriminate. }
  destruct (json_body response) as [result|reason] eqn:Hbody.
  2: { split; [discriminate|].
       intros (? & ? & ? & ? & ? & _ & [= <-] & _ & H & _). congruence. }
  rewrite run_onSubmit_settle.
  destruct (ok response) eqn:Hok; cbn [negb].
  2: { split; [discriminate|].
       intros (? & ? & ? & ? & ? & _ & [= <-] & H & _). congruence. }
  destruct (Get_path result ["data"; "token"]) as [e|token] eqn:Htoken.
  { split; [discriminate|].
    intros (? & ? & ? & ? & ? & _ & [= <-] & _ & H1 & H2 & _). congruence. }
  destruct (ToString token) as [e|tok] eqn:Htok.
  { split; [discriminate|].
    intros (? & ? & ? & ? & ? & _ & [= <-] & _ & H1 & H2 & H3 & _). congruence. }
  cbn zeta. destruct (user_summary result) as [e|summary] eqn:Hsum.
  - split; [discriminate|].
    intros (? & ? & ? & ? & user & _ & [= <-] & _ & H1 & _ & _ & Hu & Hne & Hnn).
    assert (Hex : exists summary, user_summary result = inr summary).
    { apply user_summary_defined. exists user. split; [congruence|]. auto. }
    destruct Hex as [? Hex]. congruence.
  - split; [intros _|reflexivity].
    assert (Hex : exists summary, user_summary result = inr summary) by eauto.
    apply user_summary_defined in Hex as (user & Hu & Hne & Hnn).
    exists response, result, token, tok, user.
    split; [now eexists|]. repeat split; auto.
Qed.

(** X17.  A response that is [ok] and has a user but no [token]
    property is not refused: the text "undefined" is stored as the
    token, the user summary is stored, and the page navigates to the
    dashboard with no error. *)
Theorem onSubmit_missing_token_is_stored
    (net : network) svcs data st w response result user :
  is_Some (find_service svcs (Inputs.specialization data)) ->
  net register_url (register_request data) = Fulfilled response ->
  ok response = true ->
  json_body response = Fulfilled result ->
  Get_path result ["data"; "token"] = inr VUndefined ->
  Get_path result ["data"; "user"] = inr user ->
  user <> VUndefined -> user <> VNull ->
  exists st' w',
    run net (onSubmit svcs data) st w = (st', w', inr tt)
    /\ localStorage w' !! "token" = Some "undefined"
    /\ is_Some (localStorage w' !! "user")
    /\ location w' = Some "/doctor/dashboard"
    /\ error st' = None.
Proof.
  intros [s Hs] Hnet Hok Hbody Htoken Huser Hne Hnn.
  assert (Hex : exists summary, user_summary result = inr summary).
  { apply user_summary_defined. eauto. }
  destruct Hex as [summary Hsum].
  rewrite run_onSubmit, run_onSubmit_try, Hs. cbn zeta.
  rewrite Hnet, Hbody, run_onSubmit_settle, Hok, Htoken. cbn [negb ToString].
  cbn zeta. rewrite Hsum.
  eexists _, _. split; [reflexivity|]. cbn [perform localStorage].
  split; [rewrite lookup_insert_ne by discriminate; apply lookup_insert_eq|].
  split; [rewrite lookup_insert_eq; now eexists|].
  split; [now rewrite location_perform|reflexivity].
Qed.
End Success.

(** * The further properties on the sample page *)

Lemma filled_reachable : reachable Scenario.filled.
Proof.
  apply (steps_reachable Scenario.filling (reachable_initial ∅)).
  vm_compute. reflexivity.
Qed.

Lemma refused_reachable : reachable Scenario.refused.
Proof.
  apply (steps_reachable
           (Sample.visit ++ [Fetch_settles 0 (Fulfilled Sample.email_exists); Body_read 0])
           (reachable_initial ∅)).
  vm_compute. reflexivity.
Qed.

Lemma onSubmit_fetch_rejected_sample :
  exists st',
    run Scenario.offline (onSubmit [Sample.cardiology] Sample.dr_doe)
        Sample.page Sample.blank_browser =
      (st', perform (Fetched register_url (register_request Sample.dr_doe))
              Sample.blank_browser, inr tt)
    /\ error st' = Some "Failed to fetch"
    /\ isLoading st' = false.
Proof.
  apply (onSubmit_fetch_rejected Scenario.offline [Sample.cardiology] Sample.dr_doe
           Sample.page Sample.blank_browser (reason := new_Error "Failed to fetch")).
  - eexists. reflexivity.
  - reflexivity.
Defined.

Lemma onSubmit_ok_without_token_sample :
  exists st',
    run (fun _ _ => Fulfilled Scenario.no_data)
        (onSubmit [Sample.cardiology] Sample.dr_doe)
        Sample.page Sample.blank_browser =
      (st', perform (Fetched register_url (register_request Sample.dr_doe))
              Sample.blank_browser, inr tt)
    /\ error st' =
         Some (or_else_string
                 (message (TypeError_read (VUndefined : value) "token"))
                 "Registration failed. Please try again.")
    /\ isLoading st' = false.
Proof.
  apply (onSubmit_ok_without_token (fun _ _ => Fulfilled Scenario.no_data)
           [Sample.cardiology] Sample.dr_doe Sample.page Sample.blank_browser
           (response := Scenario.no_data) (result := VObj [])).
  - eexists. reflexivity.
  - reflexivity.
  - reflexivity.
  - reflexivity.
  - reflexivity.
Defined.

Lemma onSubmit_token_without_user_sample :
  exists st' w',
    run (fun _ _ => Fulfilled Scenario.token_only)
        (onSubmit [Sample.cardiology] Sample.dr_doe)
        Sample.page Sample.blank_browser = (st', w', inr tt)
    /\ trace w' =
         [] ++ [Fetched register_url (register_request Sample.dr_doe);
                Stored "token" "tok-123"]
    /\ localStorage w' !! "token" = Some "tok-123"
    /\ localStorage w' !! "user" = (∅ : gmap string string) !! "user"
    /\ location w' = None
    /\ error st' =
         Some (or_else_string
                 (message (TypeError_read (VUndefined : value) "id"))
                 "Registration failed. Please try again.")
    /\ isLoading st' = false.
Proof.
  apply (onSubmit_token_without_user (fun _ _ => Fulfilled Scenario.token_only)
           [Sample.cardiology] Sample.dr_doe Sample.page Sample.blank_browser
           (response := Scenario.token_only)
           (result := VObj [ ("data", VObj [ ("token", VStr "tok-123") ]) ])
           (token := VStr "tok-123") (tok := "tok-123") (u := VUndefined)).
  - eexists. reflexivity.
  - reflexivity.
  - reflexivity.
  - reflexivity.
  - reflexivity.
  - reflexivity.
  - reflexivity.
  - left. reflexivity.
Defined.

Lemma onSubmit_keeps_other_keys_sample :
  localStorage (run (fun _ _ => Fulfilled Sample.created)
                  (onSubmit [Sample.cardiology] Sample.dr_doe)
                  Sample.page Scenario.themed).1.2 !! "theme"
  = localStorage Scenario.themed !! "theme".
Proof.
  apply (onSubmit_keeps_other_keys (fun _ _ => Fulfilled Sample.created)
           [Sample.cardiology] Sample.dr_doe Sample.page Scenario.themed
           (key := "theme")); discriminate.
Defined.

Lemma select_then_submit_sample :
  exists st' w' later,
    run (fun _ _ => Fulfilled Sample.created)
        (onSubmit (services (handleServiceChange "Dermatology" Sample.page))
                  (values (handleServiceChange "Dermatology" Sample.page)))
        (handleServiceChange "Dermatology" Sample.page) Sample.blank_browser
      = (st', w', inr tt)
    /\ trace w' =
         [] ++
         Fetched "http://localhost:5000/api/auth/doctor/register"
           {| method := "POST";
              headers := [("Content-Type", "application/json")];
              body := JSON_stringify (VObj
                [ ("name", VStr "Dr. John Doe");
                  ("email", VStr "doctor@example.com");
                  ("password", VStr "secret1");
                  ("specialization", VStr "Dermatology");
                  ("phoneNumber", VStr "+1 (555) 000-0000");
                  ("address", VStr "1 Main St");
                  ("role", VStr "doctor") ]) |} :: later.
Proof.
  apply (select_then_submit (fun _ _ => Fulfilled Sample.created)
           (v := "Dermatology") Sample.page Sample.blank_browser
           (s := Sample.dermatology)).
  - right. left.
  - reflexivity.
Defined.

Lemma select_option_shows_details_sample :
  exists s,
    find_service (services Sample.page) "Dermatology" = Some s
    /\ s ∈ services Sample.page /\ Service.name s = "Dermatology"
    /\ Inputs.specialization (values (handleServiceChange "Dermatology" Sample.page))
       = "Dermatology"
    /\ duration_field (handleServiceChange "Dermatology" Sample.page)
       = Number_toString (Service.duration s) +:+ " minutes"
    /\ price_field (handleServiceChange "Dermatology" Sample.page)
       = "$" +:+ Number_toString (Service.price s).
Proof.
  apply (select_option_shows_details (st := Sample.page)
           (v := "Dermatology") (text := "Dermatology - $80 - 20 mins")).
  - right. right. left.
  - discriminate.
Defined.

Lemma services_set_once_sample :
  (fetchingServices Sample.submitted = true -> services (hooks Sample.submitted) = [])
  /\ (forall evs c',
        steps Sample.submitted evs = Some c' ->
        fetchingServices Sample.submitted = false ->
        services (hooks c') = services (hooks Sample.submitted)).
Proof. apply (services_set_once submitted_reachable). Defined.

(** The service list never arrives; the doctor fills every field in,
    opens the select, which offers its placeholder alone, and submits:
    the submission is refused under the specialization. *)
Lemma no_services_no_registration_sample :
  errors (hooks Scenario.stranded_later)
    = [("specialization", "Service selection is required")]
  /\ (browser Scenario.stranded_later = browser (initial ∅)
      \/ browser Scenario.stranded_later
         = perform (Navigated "/doctor/login") (browser (initial ∅)))
  /\ services (hooks Scenario.stranded_later) = []
  /\ select_options (hooks Scenario.stranded_later) = [("", "Select a service")]
  /\ selectedServiceDetails (hooks Scenario.stranded_later) = None
  /\ in_flight Scenario.stranded_later = []
  /\ error (hooks Scenario.stranded_later) = error (hooks (initial ∅))
  /\ (forall c3, step Scenario.stranded_later Submit = Some c3 ->
        browser c3 = browser (initial ∅)
        /\ ("specialization", "Service selection is required") ∈ errors (hooks c3)
        /\ error (hooks c3) = error (hooks (initial ∅))
        /\ in_flight c3 = []).
Proof.
  split; [reflexivity|].
  apply (no_services_no_registration (c := initial ∅) (c1 := Scenario.stranded)
           (new_Error "Network Error") (reachable_initial ∅) eq_refl
           Scenario.stranded_typing).
  vm_compute. reflexivity.
Defined.

Lemma submission_agrees_with_run_sample :
  exists c',
    steps Scenario.filled (submission (Fulfilled Sample.created)) = Some c'
    /\ run (fun _ _ => Fulfilled Sample.created)
         (onSubmit (services (hooks Scenario.filled)) (values (hooks Scenario.filled)))
         (with_errors [] (hooks Scenario.filled)) (browser Scenario.filled)
       = (hooks c', browser c', inr tt)
    /\ in_flight c' = [] /\ fetchingServices c' = fetchingServices Scenario.filled.
Proof.
  apply (submission_agrees_with_run (Fulfilled Sample.created) filled_reachable).
  - reflexivity.
  - reflexivity.
  - eexists. reflexivity.
Defined.

Lemma navigation_requires_session_sample :
  location (browser Scenario.accepted) = Some "/doctor/dashboard"
  /\ (forall key, key <> "token" -> key <> "user" ->
        localStorage (browser Scenario.accepted) !! key
        = ({[ "theme" := "dark" ]} : gmap string string) !! key)
  /\ (forall to, location (browser Scenario.accepted) = Some to ->
        to = "/doctor/login"
        \/ (to = "/doctor/dashboard"
            /\ is_Some (localStorage (browser Scenario.accepted) !! "token")
            /\ is_Some (localStorage (browser Scenario.accepted) !! "user"))).
Proof.
  split; [reflexivity|].
  apply (navigation_requires_session {[ "theme" := "dark" ]} Scenario.accepted_visit).
  vm_compute. reflexivity.
Defined.

Lemma error_banner_shows_error_sample :
  error (hooks Scenario.refused) = Some "Email exists"
  /\ error (hooks Scenario.refused) <> Some ""
  /\ error_banner (hooks Scenario.refused) = error (hooks Scenario.refused).
Proof.
  split; [reflexivity|]. apply (error_banner_shows_error refused_reachable).
Defined.

Lemma onSubmit_missing_token_is_stored_sample :
  exists st' w',
    run (fun _ _ => Fulfilled Scenario.user_only)
        (onSubmit [Sample.cardiology] Sample.dr_doe)
        Sample.page Sample.blank_browser = (st', w', inr tt)
    /\ localStorage w' !! "token" = Some "undefined"
    /\ is_Some (localStorage w' !! "user")
    /\ location w' = Some "/doctor/dashboard"
    /\ error st' = None.
Proof.
  apply (onSubmit_missing_token_is_stored (fun _ _ => Fulfilled Scenario.user_only)
           [Sample.cardiology] Sample.dr_doe Sample.page Sample.blank_browser
           (response := Scenario.user_only)
           (result := VObj
             [ ("data", VObj
                 [ ("user", VObj [ ("id", VNum 7%Z); ("name", VStr "Dr. John Doe") ]) ]) ])
           (user := VObj [ ("id", VNum 7%Z); ("name", VStr "Dr. John Doe") ])).
  - eexists. reflexivity.
  - reflexivity.
  - reflexivity.
  - reflexivity.
  - reflexivity.
  - reflexivity.
  - discriminate.
  - discriminate.
Defined.
